(** * commet: the staging-and-commit model of [commet.go]

    A shallow embedding of [src/commet.go]: the repository operations
    ([NewRepo], [Init], [HashFile], [Add], [Commit], [Status]) and the
    command line ([printHelp], [main]), over an explicit model of what
    they touch: the file system, the wall clock and the standard output.
    The library calls the program makes ([os], [fmt], [time], [flag],
    [crypto/sha1], [encoding/hex], [unicode/utf8], [encoding/json]) are
    modelled first, then the program is transcribed statement by
    statement, then the properties are stated and proved. *)

From Stdlib Require Import ZArith Ascii.
From stdpp Require Import gmap strings list fin_maps pretty.

(** Go strings are byte sequences; they are modelled by [string], whose
    characters are the 256 byte values. *)

(* ===================================================================== *)
(** ** encoding/hex *)
(* ===================================================================== *)

Module hex.

Definition hextable : list ascii :=
  ["0";"1";"2";"3";"4";"5";"6";"7";"8";"9";"a";"b";"c";"d";"e";"f"]%char.

Definition digit (n : N) : ascii := nth (N.to_nat n) hextable "0"%char.

(** [hex.EncodeToString]: two lower-case digits per byte, high nibble
    first. *)
Fixpoint EncodeToString (src : string) : string :=
  match src with
  | EmptyString => EmptyString
  | String c rest =>
      let v := N_of_ascii c in
      String (digit (N.shiftr v 4))
        (String (digit (N.land v 15)) (EncodeToString rest))
  end.

Definition is_digit (c : ascii) : bool :=
  existsb (fun d => bool_decide (c = d)) hextable.

End hex.

(* ===================================================================== *)
(** ** crypto/sha1 *)
(* ===================================================================== *)

(** SHA-1 as [sha1.New(); Write(data); Sum(nil)] computes it (FIPS 180-4),
    on 32-bit words held in [Z] with the wrap-around written out. *)
Module sha1.
Local Open Scope Z_scope.

Definition mask32 (x : Z) : Z := Z.land x 4294967295.
Definition rotl (n x : Z) : Z :=
  mask32 (Z.lor (Z.shiftl x n) (Z.shiftr x (32 - n))).
Definition add32 (x y : Z) : Z := mask32 (x + y).

Definition bytes_of (s : string) : list Z :=
  map (fun c => Z.of_N (N_of_ascii c)) (String.list_ascii_of_string s).

(** The [n] low bytes of [x], most significant first. *)
Definition be_bytes (n : nat) (x : Z) : list Z :=
  map (fun i => Z.land (Z.shiftr x (8 * Z.of_nat i)) 255) (rev (seq 0 n)).

(** Padding: a 1 bit, zeros up to 56 mod 64, the bit length on 8 bytes. *)
Definition pad (msg : list Z) : list Z :=
  let len := Z.of_nat (length msg) in
  let zeros := Z.to_nat ((55 - len) mod 64) in
  msg ++ [128] ++ repeat 0 zeros ++ be_bytes 8 (8 * len).

Fixpoint words (n : nat) (bs : list Z) : list Z :=
  match n, bs with
  | S n', b0 :: b1 :: b2 :: b3 :: rest =>
      (Z.shiftl b0 24 + Z.shiftl b1 16 + Z.shiftl b2 8 + b3) :: words n' rest
  | _, _ => []
  end.

(** Message schedule: [n] more words after the ones in [w]. *)
Fixpoint schedule (n : nat) (w : list Z) : list Z :=
  match n with
  | O => w
  | S n' =>
      let t := length w in
      let g k := nth (t - k) w 0 in
      schedule n'
        (w ++ [rotl 1 (Z.lxor (Z.lxor (g 3%nat) (g 8%nat))
                              (Z.lxor (g 14%nat) (g 16%nat)))])
  end.

Record digest := Digest { h0 : Z; h1 : Z; h2 : Z; h3 : Z; h4 : Z }.

Definition f_k (t : nat) (b c d : Z) : Z * Z :=
  if (t <? 20)%nat then
    (Z.lor (Z.land b c) (Z.land (mask32 (Z.lnot b)) d), 1518500249)
  else if (t <? 40)%nat then (Z.lxor (Z.lxor b c) d, 1859775393)
  else if (t <? 60)%nat then
    (Z.lor (Z.lor (Z.land b c) (Z.land b d)) (Z.land c d), 2400959708)
  else (Z.lxor (Z.lxor b c) d, 3395469782).

Definition round (s : digest) (tw : nat * Z) : digest :=
  let '(t, w) := tw in
  let '(f, k) := f_k t (h1 s) (h2 s) (h3 s) in
  Digest (add32 (add32 (add32 (add32 (rotl 5 (h0 s)) f) (h4 s)) k) w)
         (h0 s) (rotl 30 (h1 s)) (h2 s) (h3 s).

Definition block (h : digest) (blk : list Z) : digest :=
  let w := schedule 64 (words 16 blk) in
  let s := fold_left round (combine (seq 0 80) w) h in
  Digest (add32 (h0 h) (h0 s)) (add32 (h1 h) (h1 s)) (add32 (h2 h) (h2 s))
         (add32 (h3 h) (h3 s)) (add32 (h4 h) (h4 s)).

Fixpoint blocks (n : nat) (h : digest) (bs : list Z) : digest :=
  match n, bs with
  | S n', _ :: _ => blocks n' (block h (firstn 64 bs)) (skipn 64 bs)
  | _, _ => h
  end.

Definition init : digest :=
  Digest 1732584193 4023233417 2562383102 271733878 3285377520.

Definition string_of_bytes (bs : list Z) : string :=
  String.string_of_list_ascii (map (fun b => ascii_of_N (Z.to_N b)) bs).

(** The 20-byte checksum of [data]. *)
Definition Sum (data : string) : string :=
  let bs := pad (bytes_of data) in
  let s := blocks (length bs) init bs in
  string_of_bytes
    (be_bytes 4 (h0 s) ++ be_bytes 4 (h1 s) ++ be_bytes 4 (h2 s) ++
     be_bytes 4 (h3 s) ++ be_bytes 4 (h4 s)).

End sha1.

(** [hex.EncodeToString(h.Sum(nil))] after [h.Write(data)], the idiom of
    both [HashFile] and [Commit]. *)
Definition sha1_hex (data : string) : string :=
  hex.EncodeToString (sha1.Sum data).
#[global] Arguments sha1_hex : simpl never.

(* ===================================================================== *)
(** ** The world: file system, clock, standard output *)
(* ===================================================================== *)

Inductive errno := ENOENT | EEXIST | EISDIR | ENOTDIR | EBADF | EIO.

(** A Go [(value, error)] pair of which exactly one side is meaningful. *)
Inductive result (A : Type) :=
| Ok (a : A)
| Err (e : errno).
Arguments Ok {A} a.
Arguments Err {A} e.

Inductive Node :=
| Directory
| Regular (data : string).

(** The calls that reach the operating system. *)
Inductive Syscall :=
| SysStat (name : string)
| SysOpen (name : string)
| SysRead (name : string)
| SysCreate (name : string)
| SysWrite (name : string) (data : string)
| SysMkdir (name : string)
| SysMkdirAll (path : string)
| SysRemove (name : string)
| SysNow.

Record Event := Ev { call : Syscall; succeeded : bool }.

(** The file system is a finite map from path names to nodes.  Parent
    directories are not tracked: a failure caused by a missing or
    read-only parent, a full disk or an I/O error is a fault that the
    oracle [faults] injects.  [faults n c = Some k] makes call [c], issued
    as the [n]-th call of the history, fail; for a write, [k] bytes reach
    the file before the failure.  [clock n] is the text [time.Now().String()]
    yields when read as the [n]-th call.  [trace] is the history of calls,
    oldest first; [stdout] the lines printed so far. *)
Record World := mkWorld {
  fs : gmap string Node;
  faults : nat -> Syscall -> option nat;
  clock : nat -> string;
  trace : list Event;
  stdout : list string
}.

Definition set_fs (m : gmap string Node) (w : World) : World :=
  mkWorld m (faults w) (clock w) (trace w) (stdout w).

Definition log (c : Syscall) (b : bool) (w : World) : World :=
  mkWorld (fs w) (faults w) (clock w) (trace w ++ [Ev c b]) (stdout w).

Definition fault_at (w : World) (c : Syscall) : option nat :=
  faults w (length (trace w)) c.

(** Computations over the world. *)
Definition M (A : Type) : Type := World -> A * World.

Definition ret {A} (a : A) : M A := fun w => (a, w).

Definition bind {A B} (m : M A) (k : A -> M B) : M B :=
  fun w => let '(a, w') := m w in k a w'.

Notation "'let*' x := c 'in' k" := (bind c (fun x => k))
  (at level 10, x pattern, c at level 100, k at level 200,
   format "'[v' 'let*'  x  :=  c  'in' '/' k ']'").

(* ===================================================================== *)
(** ** os, time, fmt *)
(* ===================================================================== *)

Module os.

(** An open [*os.File] is known by the name it was opened under. *)
Abbreviation File := string.

(** [os.Stat]: only the error is ever inspected by the program.  Like
    every other call it can fail for a reason of its own (a directory on
    the way that cannot be searched, an I/O error), with an error that is
    not the one of a missing file. *)
Definition Stat (name : string) : M (option errno) := fun w =>
  match fault_at w (SysStat name) with
  | Some _ => (Some EIO, log (SysStat name) false w)
  | None =>
      match fs w !! name with
      | Some _ => (None, log (SysStat name) true w)
      | None => (Some ENOENT, log (SysStat name) false w)
      end
  end.

Definition IsNotExist (err : option errno) : bool :=
  match err with
  | Some ENOENT => true
  | _ => false
  end.

(** [os.Open]: a directory can be opened, only reading it fails. *)
Definition Open (name : string) : M (result File) := fun w =>
  match fault_at w (SysOpen name) with
  | Some _ => (Err EIO, log (SysOpen name) false w)
  | None =>
      match fs w !! name with
      | Some _ => (Ok name, log (SysOpen name) true w)
      | None => (Err ENOENT, log (SysOpen name) false w)
      end
  end.

(** Reading an open file to its end ([file.WriteTo], the reads of a
    [json.Decoder]). *)
Definition ReadAll (f : File) : M (result string) := fun w =>
  match fault_at w (SysRead f) with
  | Some _ => (Err EIO, log (SysRead f) false w)
  | None =>
      match fs w !! f with
      | Some (Regular data) => (Ok data, log (SysRead f) true w)
      | Some Directory => (Err EISDIR, log (SysRead f) false w)
      | None => (Err EBADF, log (SysRead f) false w)
      end
  end.

(** [os.Create]: creates the file or truncates the one that exists. *)
Definition Create (name : string) : M (result File) := fun w =>
  match fault_at w (SysCreate name) with
  | Some _ => (Err EIO, log (SysCreate name) false w)
  | None =>
      match fs w !! name with
      | Some Directory => (Err EISDIR, log (SysCreate name) false w)
      | _ => (Ok name, log (SysCreate name) true
                         (set_fs (<[name := Regular ""]> (fs w)) w))
      end
  end.

(** [File.Write]: appends at the file's offset, which is its end for a
    file written once after [Create]. *)
Definition Write (f : File) (data : string) : M (option errno) := fun w =>
  match fs w !! f with
  | Some (Regular old) =>
      match fault_at w (SysWrite f data) with
      | Some k =>
          (Some EIO, log (SysWrite f data) false
             (set_fs (<[f := Regular (old +:+ String.substring 0 k data)]> (fs w)) w))
      | None =>
          (None, log (SysWrite f data) true
             (set_fs (<[f := Regular (old +:+ data)]> (fs w)) w))
      end
  | _ => (Some EBADF, log (SysWrite f data) false w)
  end.

Definition Mkdir (name : string) : M (option errno) := fun w =>
  match fault_at w (SysMkdir name) with
  | Some _ => (Some EIO, log (SysMkdir name) false w)
  | None =>
      match fs w !! name with
      | Some _ => (Some EEXIST, log (SysMkdir name) false w)
      | None => (None, log (SysMkdir name) true
                         (set_fs (<[name := Directory]> (fs w)) w))
      end
  end.

(** [os.MkdirAll], one step in the flat name space: nothing to do when
    the directory exists, an error when a file is in the way. *)
Definition MkdirAll (path : string) : M (option errno) := fun w =>
  match fault_at w (SysMkdirAll path) with
  | Some _ => (Some EIO, log (SysMkdirAll path) false w)
  | None =>
      match fs w !! path with
      | Some Directory => (None, log (SysMkdirAll path) true w)
      | Some (Regular _) => (Some ENOTDIR, log (SysMkdirAll path) false w)
      | None => (None, log (SysMkdirAll path) true
                         (set_fs (<[path := Directory]> (fs w)) w))
      end
  end.

(** [os.WriteFile] is [OpenFile] with create and truncate, one [Write],
    [Close]. *)
Definition WriteFile (name : string) (data : string) : M (option errno) :=
  let* r := Create name in
  match r with
  | Err e => ret (Some e)
  | Ok f => Write f data
  end.

Definition Remove (name : string) : M (option errno) := fun w =>
  match fault_at w (SysRemove name) with
  | Some _ => (Some EIO, log (SysRemove name) false w)
  | None =>
      match fs w !! name with
      | Some _ => (None, log (SysRemove name) true
                           (set_fs (delete name (fs w)) w))
      | None => (Some ENOENT, log (SysRemove name) false w)
      end
  end.

End os.

Module time.

(** [time.Now().String()]. *)
Definition Now_String : M string := fun w =>
  (clock w (length (trace w)), log SysNow true w).

End time.

Module fmt.

(** One printed line, without its newline. *)
Definition Println (line : string) : M unit := fun w =>
  (tt, mkWorld (fs w) (faults w) (clock w) (trace w) (stdout w ++ [line])).

End fmt.

Module filepath.

(** [filepath.Join] of two elements.  The lexical clean-up [Join] also
    does is not modelled; the names built here denote the same files. *)
Definition Join (a b : string) : string := a +:+ "/" +:+ b.

End filepath.

(* ===================================================================== *)
(** ** Data model of [commet.go] *)
(* ===================================================================== *)

Definition version : string := "0.1.0".

Record Commit := mkCommit {
  Hash : string;
  Message : string;
  Timestamp : string;
  Files : list string
}.

Record Repo := mkRepo {
  RepoDir : string;
  VcsDir : string
}.

(** The values of Go's [error] the four operations return. *)
Inductive error :=
| AlreadyInitializedError           (* "repository already initialized" *)
| InitError (cause : errno)         (* "failed to initialize repository: %v" *)
| NothingToCommitError              (* "no changes to commit" *)
| ReadStagedError (cause : error)   (* "failed to read staged files: %v" *)
| PathError (e : errno)             (* an error of [os], returned as it is *)
| SyntaxError.                      (* an error of [encoding/json] *)

(* ===================================================================== *)
(** ** unicode/utf8 *)
(* ===================================================================== *)

Module utf8.
#[local] Open Scope N_scope.

(** The entries of the table [first]: [as_] an ASCII byte, [xx] a byte
    that starts no encoding; otherwise the low three bits give the width
    of the encoding and the high four the range its second byte must lie
    in. *)
Definition as_ : N := 0xF0.
Definition xx : N := 0xF1.
Definition s1 : N := 0x02.
Definition s2 : N := 0x13.
Definition s3 : N := 0x03.
Definition s4 : N := 0x23.
Definition s5 : N := 0x34.
Definition s6 : N := 0x04.
Definition s7 : N := 0x44.

Definition first (b : N) : N :=
  if b <? 0x80 then as_          (* 0x00-0x7F *)
  else if b <? 0xC2 then xx      (* 0x80-0xC1 *)
  else if b <? 0xE0 then s1      (* 0xC2-0xDF *)
  else if b =? 0xE0 then s2
  else if b <? 0xED then s3      (* 0xE1-0xEC *)
  else if b =? 0xED then s4
  else if b <? 0xF0 then s3      (* 0xEE-0xEF *)
  else if b =? 0xF0 then s5
  else if b <? 0xF4 then s6      (* 0xF1-0xF3 *)
  else if b =? 0xF4 then s7
  else xx.                       (* 0xF5-0xFF *)

Definition locb : N := 0x80.
Definition hicb : N := 0xBF.

Definition acceptRanges (i : N) : N * N :=
  match i with
  | 0 => (locb, hicb)
  | 1 => (0xA0, hicb)
  | 2 => (locb, 0x9F)
  | 3 => (0x90, hicb)
  | 4 => (locb, 0x8F)
  | _ => (0, 0)
  end.

Definition outside (lo hi : N) (c : ascii) : bool :=
  (N_of_ascii c <? lo) || (hi <? N_of_ascii c).

(** The width [utf8.DecodeRuneInString] returns for the string that
    starts with byte [s0] and goes on with [rest]; [None] stands for its
    answer to an invalid encoding, [RuneError] with width 1.  The rune is
    not computed: nothing here looks at it but through that test.  A
    string too short for the width asked is caught where the byte that is
    missing would be read. *)
Definition width (s0 : ascii) (rest : string) : option nat :=
  let x := first (N_of_ascii s0) in
  if as_ <=? x then
    if x =? as_ then Some 1%nat else None
  else
    let sz := N.land x 7 in
    let '(lo, hi) := acceptRanges (N.shiftr x 4) in
    match rest with
    | String c1 rest1 =>
        if outside lo hi c1 then None
        else if sz <=? 2 then Some 2%nat
        else
          match rest1 with
          | String c2 rest2 =>
              if outside locb hicb c2 then None
              else if sz <=? 3 then Some 3%nat
              else
                match rest2 with
                | String c3 _ =>
                    if outside locb hicb c3 then None else Some 4%nat
                | EmptyString => None
                end
          | EmptyString => None
          end
    | EmptyString => None
    end.

(** [utf8.ValidString]; [skip] counts the bytes still to pass of an
    encoding whose width has been found. *)
Fixpoint valid_from (skip : nat) (s : string) : bool :=
  match s with
  | EmptyString => true
  | String c rest =>
      match skip with
      | S k => valid_from k rest
      | O =>
          match width c rest with
          | Some n => valid_from (Nat.pred n) rest
          | None => false
          end
      end
  end.

Definition ValidString (s : string) : bool := valid_from 0%nat s.

(** U+FFFD, the replacement character, in UTF-8. *)
Definition replacement : string :=
  String (ascii_of_N 0xEF) (String (ascii_of_N 0xBF) (String (ascii_of_N 0xBD) EmptyString)).

End utf8.

(* ===================================================================== *)
(** ** encoding/json *)
(* ===================================================================== *)

(** The text a string comes back as once [encoding/json] has written it
    and read it again: the encoder walks the string rune by rune and
    writes U+FFFD for every byte at which [utf8.DecodeRuneInString] answers
    [RuneError] with width 1; everything else it writes is read back as
    it was.  [skip] counts the bytes still to copy of an encoding whose
    width has been found. *)
Fixpoint coerce_from (skip : nat) (s : string) : string :=
  match s with
  | EmptyString => EmptyString
  | String c rest =>
      match skip with
      | S k => String c (coerce_from k rest)
      | O =>
          match utf8.width c rest with
          | Some n => String c (coerce_from (pred n) rest)
          | None => utf8.replacement +:+ coerce_from 0 rest
          end
      end
  end.

Definition coerce (s : string) : string := coerce_from 0 s.

(** A [Commit] and a staged entry with their strings coerced. *)
Definition coerce_commit (c : Commit) : Commit :=
  mkCommit (coerce (Hash c)) (coerce (Message c)) (coerce (Timestamp c))
    (map coerce (Files c)).

Definition coerce_entry (e : gmap string string) : gmap string string :=
  coerce <$> e.

(** A decoded entry: every key and every value is valid UTF-8. *)
Definition text_entry (e : gmap string string) : Prop :=
  map_Forall (fun k x => utf8.ValidString k = true /\ utf8.ValidString x = true) e.

Definition keys_text (e : gmap string string) : Prop :=
  map_Forall (fun k _ => utf8.ValidString k = true) e.

(** The codec of [encoding/json] at the two types the program serialises:
    the staged sequence, a [[]map[string]string], and a [Commit].  It is an
    interface of the model.  Encoding cannot fail at these types, decoding
    can.  What is known of it: the strings the decoder returns are valid
    UTF-8 (it writes U+FFFD for what is not); a value that is encoded and
    decoded again comes back with its strings coerced, and so unchanged
    when they are valid UTF-8.  For a map the second law asks for keys
    that are valid UTF-8, as the two keys the program writes are: keys
    that are not could collide once coerced. *)
Class JSON := {
  encode_staged : list (gmap string string) -> string;
  decode_staged : string -> option (list (gmap string string));
  encode_commit : Commit -> string;
  decode_commit : string -> option Commit;
  decode_staged_text : forall d v,
    decode_staged d = Some v -> Forall text_entry v;
  decode_encode_staged : forall v,
    Forall keys_text v ->
    decode_staged (encode_staged v) = Some (coerce_entry <$> v);
  decode_encode_commit : forall c,
    decode_commit (encode_commit c) = Some (coerce_commit c)
}.

Module json.
Section Codec.
Context `{JSON}.

(** [json.NewDecoder(file).Decode(&v)] at type [[]map[string]string]. *)
Definition Decode (file : os.File) : M (error + list (gmap string string)) :=
  let* r := os.ReadAll file in
  match r with
  | Err e => ret (inl (PathError e))
  | Ok data =>
      match decode_staged data with
      | Some v => ret (inr v)
      | None => ret (inl SyntaxError)
      end
  end.

(** [json.NewEncoder(file).Encode(v)]: the text is built in memory and
    handed to the file in one [Write]. *)
Definition Encode (file : os.File) (v : list (gmap string string))
  : M (option error) :=
  let* err := os.Write file (encode_staged v) in
  match err with
  | Some e => ret (Some (PathError e))
  | None => ret None
  end.

(** [json.Marshal] at type [Commit]; its error result is always nil. *)
Definition Marshal (c : Commit) : string := encode_commit c.

End Codec.
End json.

(* ===================================================================== *)
(** ** The repository operations *)
(* ===================================================================== *)

Definition NewRepo (repoDir : string) : Repo :=
  let vcsDir := filepath.Join repoDir ".commet" in
  mkRepo repoDir vcsDir.

(** The path names the methods compute in their local variables
    [stagedFile], [commitDir] and [commitFile]. *)
Definition stagedFile (r : Repo) : string :=
  filepath.Join (VcsDir r) "staged.json".

Definition commitDir (r : Repo) : string :=
  filepath.Join (VcsDir r) "commits".

Definition commitFile (r : Repo) (hash : string) : string :=
  filepath.Join (commitDir r) hash.

(** The loop of [Status]: [fmt.Printf("- %s\n", file["path"])] for each
    staged entry; a missing key reads as the empty string. *)
Fixpoint print_paths (staged : list (gmap string string)) : M unit :=
  match staged with
  | [] => ret tt
  | file :: rest =>
      let* _ := fmt.Println ("- " +:+ default "" (file !! "path")) in
      print_paths rest
  end.

(** The methods of [Repo]. *)
Module Repo.
Section Operations.
Context `{JSON}.

Definition Init (r : Repo) : M (option error) :=
  let* err := os.Stat (VcsDir r) in
  if negb (os.IsNotExist err) then
    ret (Some AlreadyInitializedError)
  else
    let* err := os.Mkdir (VcsDir r) in
    match err with
    | Some e => ret (Some (InitError e))
    | None =>
        let* _ := fmt.Println ("Initialized empty repository in " +:+ RepoDir r) in
        ret None
    end.

Definition HashFile (r : Repo) (filepath : string) : M (result string) :=
  let* o := os.Open filepath in
  match o with
  | Err e => ret (Err e)
  | Ok file =>
      (* file.WriteTo(hasher) *)
      let* rd := os.ReadAll file in
      match rd with
      | Err e => ret (Err e)
      | Ok data => ret (Ok (sha1_hex data))
      end
  end.

Definition Add (r : Repo) (filePath : string) : M (option error) :=
  let* h := HashFile r filePath in
  match h with
  | Err e => ret (Some (PathError e))
  | Ok fileHash =>
      let fileData : gmap string string :=
        <["hash" := fileHash]> {["path" := filePath]} in
      (* var staged; loaded only when os.Stat returns no error *)
      let* st := os.Stat (stagedFile r) in
      let* loaded :=
        match st with
        | None =>
            let* o := os.Open (stagedFile r) in
            match o with
            | Err e => ret (inl (PathError e))
            | Ok file => json.Decode file
            end
        | Some _ => ret (inr [])
        end in
      match loaded with
      | inl err => ret (Some err)
      | inr staged =>
          let staged := staged ++ [fileData] in
          let* c := os.Create (stagedFile r) in
          match c with
          | Err e => ret (Some (PathError e))
          | Ok file =>
              let* err := json.Encode file staged in
              match err with
              | Some e => ret (Some e)
              | None =>
                  let* _ := fmt.Println ("Added " +:+ filePath +:+ " to staging area") in
                  ret None
              end
          end
      end
  end.

Definition Commit (r : Repo) (message : string) : M (option error) :=
  let* o := os.Open (stagedFile r) in
  match o with
  | Err _ => ret (Some NothingToCommitError)
  | Ok file =>
      let* d := json.Decode file in
      match d with
      | inl err => ret (Some (ReadStagedError err))
      | inr staged =>
          (* the hash is taken over message + time.Now().String() *)
          let* now := time.Now_String in
          let hash := sha1_hex (message +:+ now) in
          (* Timestamp: time.Now().String(), a second reading;
             Files: []string{} *)
          let* now' := time.Now_String in
          let commit := mkCommit hash message now' [] in
          let* err := os.MkdirAll (commitDir r) in
          match err with
          | Some e => ret (Some (PathError e))
          | None =>
              (* json.Marshal(commit): its error is nil at this type *)
              let commitData := json.Marshal commit in
              let* err := os.WriteFile (commitFile r (Hash commit)) commitData in
              match err with
              | Some e => ret (Some (PathError e))
              | None =>
                  (* os.Remove(stagedFile): the result is not looked at *)
                  let* _ := os.Remove (stagedFile r) in
                  let* _ := fmt.Println ("Commit successful: " +:+ message) in
                  ret None
              end
          end
      end
  end.

Definition Status (r : Repo) : M (option error) :=
  let* st := os.Stat (stagedFile r) in
  if os.IsNotExist st then
    let* _ := fmt.Println "No changes staged." in
    ret None
  else
    let* o := os.Open (stagedFile r) in
    match o with
    | Err e => ret (Some (PathError e))
    | Ok file =>
        let* d := json.Decode file in
        match d with
        | inl err => ret (Some err)
        | inr staged =>
            match staged with
            | [] =>
                let* _ := fmt.Println "No changes staged." in
                ret None
            | _ :: _ =>
                let* _ := fmt.Println "Changes staged:" in
                let* _ := print_paths staged in
                ret None
            end
        end
    end.

End Operations.
End Repo.

(* ===================================================================== *)
(** ** What an observer sees of a repository *)
(* ===================================================================== *)

Section Observations.
Context `{JSON}.

(** The staged sequence as the staging store would load it: empty when
    the file is absent, [None] when it cannot be read as a sequence. *)
Definition staging (r : Repo) (w : World) : option (list (gmap string string)) :=
  match fs w !! stagedFile r with
  | None => Some []
  | Some (Regular data) => decode_staged data
  | Some Directory => None
  end.

(** The commit log: the record stored under a hash, if any. *)
Definition commit_log (r : Repo) (w : World) (hash : string) : option Commit :=
  match fs w !! commitFile r hash with
  | Some (Regular data) => decode_commit data
  | _ => None
  end.

End Observations.

(** The entry [Add] builds for a path and a fingerprint. *)
Definition entry (path hash : string) : gmap string string :=
  <["hash" := hash]> {["path" := path]}.

Definition path_of (e : gmap string string) : string :=
  default "" (e !! "path").

(** What [Status] prints for a staged sequence with these paths. *)
Definition status_lines (paths : list string) : list string :=
  match paths with
  | [] => ["No changes staged."]
  | _ :: _ => "Changes staged:" :: map (String.append "- ") paths
  end.

(** A sequence of [Add] calls, each of which succeeds; [None] as soon as
    one fails. *)
Fixpoint Adds `{JSON} (r : Repo) (paths : list string) (w : World)
  : option World :=
  match paths with
  | [] => Some w
  | p :: rest =>
      match Repo.Add r p w with
      | (None, w') => Adds r rest w'
      | (Some _, _) => None
      end
  end.

(** A fault oracle: removing a file is denied, all else goes through (a
    control directory whose entries cannot be unlinked, or a system that
    refuses to unlink a file still open, as the staging file is when
    [Commit] removes it). *)
Definition remove_denied : nat -> Syscall -> option nat :=
  fun _ c => match c with SysRemove _ => Some 0 | _ => None end.


(** A fault oracle: [os.Stat] fails though the file can be opened and
    written (a size or inode number that does not fit the structure the
    call fills, a transient error of a network file system), all else
    goes through. *)
Definition stat_denied : nat -> Syscall -> option nat :=
  fun _ c => match c with SysStat _ => Some 0 | _ => None end.

(** Events a run appended to the history. *)
Definition new_events (before after : World) : list Event :=
  drop (length (trace before)) (trace after).

#[global] Instance errno_eq_dec : EqDecision errno.
Proof. solve_decision. Defined.
#[global] Instance Syscall_eq_dec : EqDecision Syscall.
Proof. solve_decision. Defined.
#[global] Instance Event_eq_dec : EqDecision Event.
Proof. solve_decision. Defined.
#[global] Instance Node_eq_dec : EqDecision Node.
Proof. solve_decision. Defined.

(** Does event [e] record a successful [os.Mkdir] of [name]? *)
Definition is_mkdir (name : string) (e : Event) : bool :=
  match e with
  | Ev (SysMkdir n) true => bool_decide (n = name)
  | _ => false
  end.

(* ===================================================================== *)
(** ** The command line *)
(* ===================================================================== *)

Module flag.

(** What [flag.Parse] leaves behind: the values of the two boolean flags
    [main] declares and the arguments that follow the flags. *)
Record Parsed := mkParsed {
  v : bool;
  help : bool;
  Args : list string
}.

Definition NArg (f : Parsed) : nat := length (Args f).

(** [flag.Arg(i)]: the empty string when there is no such argument. *)
Definition Arg (f : Parsed) (i : nat) : string := nth i (Args f) "".

End flag.

(** The newline inside two of the help texts. *)
Definition nl : string := String "010"%char EmptyString.

Definition printHelp : M unit :=
  let* _ := fmt.Println "Commet - A simple Git-like tool written in Go" in
  let* _ := fmt.Println (nl +:+ "Usage:") in
  let* _ := fmt.Println ("  commet [command] [options]" +:+ nl) in
  let* _ := fmt.Println "Available commands:" in
  let* _ := fmt.Println "  init      Initialize a new repository" in
  let* _ := fmt.Println "  add       Stage a file" in
  let* _ := fmt.Println "  commit    Commit staged changes" in
  let* _ := fmt.Println "  status    Show the status of the repository" in
  let* _ := fmt.Println "  -v        Show version information" in
  fmt.Println
    (nl +:+ "Use 'commet [command] -h' for more information about a command.").

Section Main.
Context `{JSON}.

(** The text of an error that comes from [os] or [encoding/json]; what it
    says is the library's business. *)
Variable lib_text : error -> string.

(** [err.Error()]: the texts of the errors built with [fmt.Errorf] are
    the program's own, [%v] splices in the text of the cause. *)
Fixpoint Error (err : error) : string :=
  match err with
  | AlreadyInitializedError => "repository already initialized"
  | InitError e => "failed to initialize repository: " +:+ lib_text (PathError e)
  | NothingToCommitError => "no changes to commit"
  | ReadStagedError cause => "failed to read staged files: " +:+ Error cause
  | PathError e => lib_text (PathError e)
  | SyntaxError => lib_text SyntaxError
  end.

(** [if err != nil { fmt.Println(err) }] *)
Definition report (err : option error) : M unit :=
  match err with
  | Some e => fmt.Println (Error e)
  | None => ret tt
  end.

(** [main], from [flag.Parse()] on. *)
Definition main (f : flag.Parsed) : M unit :=
  if flag.v f then
    fmt.Println ("Commet version: " +:+ version)
  else if flag.help f || (flag.NArg f =? 0) then
    printHelp
  else
    let repo := NewRepo "./" in
    let cmd := flag.Arg f 0 in
    if bool_decide (cmd = "init") then
      let* err := Repo.Init repo in
      report err
    else if bool_decide (cmd = "add") then
      if flag.NArg f <? 2 then
        fmt.Println "Error: You must specify a file to add."
      else
        let* err := Repo.Add repo (flag.Arg f 1) in
        report err
    else if bool_decide (cmd = "commit") then
      if flag.NArg f <? 2 then
        fmt.Println "Error: You must provide a commit message."
      else
        let* err := Repo.Commit repo (flag.Arg f 1) in
        report err
    else if bool_decide (cmd = "status") then
      let* err := Repo.Status repo in
      report err
    else
      printHelp.

End Main.

(** The lines [printHelp] prints. *)
Definition help_lines : list string :=
  [ "Commet - A simple Git-like tool written in Go";
    nl +:+ "Usage:";
    "  commet [command] [options]" +:+ nl;
    "Available commands:";
    "  init      Initialize a new repository";
    "  add       Stage a file";
    "  commit    Commit staged changes";
    "  status    Show the status of the repository";
    "  -v        Show version information";
    nl +:+ "Use 'commet [command] -h' for more information about a command." ].

(* ===================================================================== *)
(** ** Sequences of operations *)
(* ===================================================================== *)

(** One call of a repository method. *)
Inductive Op :=
| OpInit
| OpAdd (filePath : string)
| OpCommit (message : string)
| OpStatus.

Definition exec `{JSON} (r : Repo) (op : Op) : M (option error) :=
  match op with
  | OpInit => Repo.Init r
  | OpAdd p => Repo.Add r p
  | OpCommit m => Repo.Commit r m
  | OpStatus => Repo.Status r
  end.

(** A sequence of calls, each of which succeeds; [None] as soon as one
    fails. *)
Fixpoint execs `{JSON} (r : Repo) (ops : list Op) (w : World) : option World :=
  match ops with
  | [] => Some w
  | op :: rest =>
      match exec r op w with
      | (None, w') => execs r rest w'
      | (Some _, _) => None
      end
  end.

(** Is the call of event [e] one that only looks at the file system? *)
Definition is_read (e : Event) : bool :=
  match call e with
  | SysStat _ | SysOpen _ | SysRead _ => true
  | _ => false
  end.

(** Is the call of event [e] on file [name]? *)
Definition on_file (name : string) (e : Event) : bool :=
  match call e with
  | SysStat n | SysOpen n | SysRead n | SysCreate n | SysWrite n _
  | SysMkdir n | SysMkdirAll n | SysRemove n => bool_decide (n = name)
  | SysNow => false
  end.

(** Is the call of event [e] one that creates, truncates or writes a
    file? *)
Definition is_store (e : Event) : bool :=
  match call e with
  | SysCreate _ | SysWrite _ _ => true
  | _ => false
  end.


(** [os.Stat] of the staging file never fails for a reason of its own. *)
Definition Stat_answers (r : Repo) (w : World) : Prop :=
  forall n, faults w n (SysStat (stagedFile r)) = None.

(** The sequence [Add] appends to: the one in the staging file when its
    [os.Stat], the third call it makes, answers; nothing when that call
    fails. *)
Definition loaded `{JSON} (r : Repo) (w : World)
    (l : list (gmap string string)) : Prop :=
  match faults w (length (trace w) + 2) (SysStat (stagedFile r)) with
  | None => staging r w = Some l
  | Some _ => l = []
  end.

(** The staging file is absent or holds a sequence that is not empty. *)
Definition staging_ok `{JSON} (r : Repo) (w : World) : Prop :=
  fs w !! stagedFile r = None \/
  exists l, staging r w = Some l /\ l <> [].

(** The method call a command line asks for: the first argument names
    it, [add] and [commit] take the second, the rest is not looked at. *)
Definition command (args : list string) : option Op :=
  match args with
  | [] => None
  | cmd :: rest =>
      if bool_decide (cmd = "init") then Some OpInit
      else if bool_decide (cmd = "add") then
        match rest with
        | p :: _ => Some (OpAdd p)
        | [] => None
        end
      else if bool_decide (cmd = "commit") then
        match rest with
        | m :: _ => Some (OpCommit m)
        | [] => None
        end
      else if bool_decide (cmd = "status") then Some OpStatus
      else None
  end.

(* ===================================================================== *)
(** ** A codec to run the model with *)
(* ===================================================================== *)

(** An instance of the [JSON] interface: a value is written as the binary
    digits of the [Countable] code of the value with its strings coerced,
    and a text is read back as a staged sequence only when every string in
    it is valid UTF-8.  It meets the laws of the interface, which is all
    that is asked of it, and lets the operations be evaluated on concrete
    worlds. *)
Module RefCodec.

Fixpoint bits (p : positive) : string :=
  match p with
  | xH => EmptyString
  | xO q => String "0" (bits q)
  | xI q => String "1" (bits q)
  end.

Fixpoint unbits (s : string) : option positive :=
  match s with
  | EmptyString => Some xH
  | String c rest =>
      match unbits rest with
      | Some q =>
          if bool_decide (c = "0"%char) then Some (xO q)
          else if bool_decide (c = "1"%char) then Some (xI q)
          else None
      | None => None
      end
  end.

Definition tuple_of (c : Commit) : string * string * string * list string :=
  (Hash c, Message c, Timestamp c, Files c).

Definition of_tuple (t : string * string * string * list string) : Commit :=
  let '(h, m, ts, fl) := t in mkCommit h m ts fl.

Definition is_text_entry (e : gmap string string) : bool :=
  forallb (fun kx => utf8.ValidString kx.1 && utf8.ValidString kx.2)
    (map_to_list e).

Definition enc_staged (v : list (gmap string string)) : string :=
  bits (encode (coerce_entry <$> v)).

Definition dec_staged (s : string) : option (list (gmap string string)) :=
  match unbits s with
  | Some p =>
      match decode p with
      | Some v => if forallb is_text_entry v then Some v else None
      | None => None
      end
  | None => None
  end.

Definition enc_commit (c : Commit) : string :=
  bits (encode (tuple_of (coerce_commit c))).

Definition dec_commit (s : string) : option Commit :=
  match unbits s with
  | Some p => of_tuple <$> decode p
  | None => None
  end.

#[export] Instance codec : JSON.
Proof.
  assert (U : forall p, unbits (bits p) = Some p).
  { induction p as [q IH|q IH|]; simpl; [rewrite IH..|]; reflexivity. }
  assert (W : forall c rest n,
             utf8.width c rest = Some n ->
             utf8.width c (coerce_from (pred n) rest) = Some n).
  { intros c rest n. unfold utf8.width.
    destruct (utf8.as_ <=? _)%N;
      [destruct (_ =? _)%N; [|done]; by intros [= <-]|].
    destruct (utf8.acceptRanges _) as [lo hi].
    destruct rest as [|c1 rest1]; [done|].
    destruct (utf8.outside lo hi c1) eqn:E1; [done|].
    destruct (_ <=? 2)%N.
    { intros [= <-]. cbn [pred coerce_from]. by rewrite E1. }
    destruct rest1 as [|c2 rest2]; [done|].
    destruct (utf8.outside _ _ c2) eqn:E2; [done|].
    destruct (_ <=? 3)%N.
    { intros [= <-]. cbn [pred coerce_from]. by rewrite E1, E2. }
    destruct rest2 as [|c3 rest3]; [done|].
    destruct (utf8.outside _ _ c3) eqn:E3; [done|].
    intros [= <-]. cbn [pred coerce_from]. by rewrite E1, E2, E3. }
  assert (V : forall s k, utf8.valid_from k (coerce_from k s) = true).
  { induction s as [|c s IH]; intros k; [done|].
    cbn [coerce_from]. destruct k as [|k].
    - destruct (utf8.width c s) as [n|] eqn:E.
      + cbn [utf8.valid_from]. rewrite (W _ _ _ E). apply IH.
      + change (utf8.valid_from 0 (coerce_from 0 s) = true). apply IH.
    - cbn [utf8.valid_from]. apply IH. }
  assert (T : forall e, is_text_entry e = true -> text_entry e).
  { intros e He k x Hk. unfold is_text_entry in He.
    rewrite forallb_forall in He.
    apply elem_of_map_to_list, list_elem_of_In, He in Hk.
    by apply andb_true_iff in Hk. }
  assert (K : forall e, keys_text e -> is_text_entry (coerce_entry e) = true).
  { intros e He. apply forallb_forall. intros [k x] Hin.
    apply list_elem_of_In, elem_of_map_to_list in Hin.
    unfold coerce_entry in Hin. rewrite lookup_fmap in Hin.
    destruct (e !! k) as [y|] eqn:E; [|done]. injection Hin as <-.
    cbn [fst snd]. rewrite (He k y E). apply V. }
  refine {| encode_staged := enc_staged; decode_staged := dec_staged;
            encode_commit := enc_commit; decode_commit := dec_commit |}.
  - intros d v. unfold dec_staged.
    destruct (unbits d) as [p|]; [|done].
    destruct (decode p) as [v'|]; [|done].
    destruct (forallb is_text_entry v') eqn:E; [|done]. intros [= <-].
    rewrite forallb_forall in E. apply Forall_forall. intros e He.
    by apply T, E, list_elem_of_In.
  - intros v Hv. unfold dec_staged, enc_staged. rewrite U, decode_encode.
    assert (E : forallb is_text_entry (coerce_entry <$> v) = true).
    { apply forallb_forall. intros e' He'.
      apply list_elem_of_In, list_elem_of_fmap in He' as (e & -> & He).
      apply K. by eapply Forall_forall in Hv. }
    by rewrite E.
  - intros c. unfold dec_commit, enc_commit. rewrite U, decode_encode.
    reflexivity.
Defined.

End RefCodec.

(* ===================================================================== *)
(** ** Concrete worlds *)
(* ===================================================================== *)

(** The repository of the current directory, a working tree with two
    files, a clock that advances at every reading and no faults. *)
Definition repo : Repo := NewRepo ".".

Definition wall (n : nat) : string :=
  "2024-05-01 10:00:00.00000000" +:+ pretty n +:+ " +0000 UTC".

Definition no_faults : nat -> Syscall -> option nat := fun _ _ => None.

Definition fresh : World :=
  mkWorld {[ "a.txt" := Regular "hello"; "b.txt" := Regular "world" ]}
    no_faults wall [] [].

Definition with_faults (f : nat -> Syscall -> option nat) (w : World) : World :=
  mkWorld (fs w) f (clock w) (trace w) (stdout w).

Section Runs.
#[local] Existing Instance RefCodec.codec.

(** After [commet init]. *)
Definition initialized : World := (Repo.Init repo fresh).2.

(** After [commet init; commet add a.txt]. *)
Definition staged_a : World := (Repo.Add repo "a.txt" initialized).2.

(** After [commet add a.txt; commet add b.txt; commet add a.txt]. *)
Definition staged_aba : World :=
  (Repo.Add repo "a.txt"
     (Repo.Add repo "b.txt" (Repo.Add repo "a.txt" initialized).2).2).2.

(** An initialized repository whose staging file holds the empty
    sequence. *)
Definition staged_none : World :=
  set_fs (<[stagedFile repo := Regular (encode_staged [])]> (fs initialized))
    initialized.

(** After [commet commit msg] on [staged_a]. *)
Definition committed : World := (Repo.Commit repo "msg" staged_a).2.

(** [staged_a] with the staging file impossible to remove, and after
    [commet commit msg] there. *)
Definition stuck : World := with_faults remove_denied staged_a.
Definition stuck_committed : World := (Repo.Commit repo "msg" stuck).2.


(** [staged_a] where [os.Stat] fails. *)
Definition blind : World := with_faults stat_denied staged_a.

(** A working tree with a file whose name, [caf\351.txt], was written
    in Latin-1: its fourth byte is not valid UTF-8.  [legacy_staged] is
    that tree after [commet init; commet add] of the file. *)
Definition latin1 : string := "caf" +:+ String (ascii_of_N 233) ".txt".

Definition legacy : World :=
  mkWorld {[ latin1 := Regular "salut" ]} no_faults wall [] [].

Definition legacy_initialized : World := (Repo.Init repo legacy).2.

Definition legacy_staged : World := (Repo.Add repo latin1 legacy_initialized).2.

(** An initialized repository whose staging file does not parse. *)
Definition garbled : World :=
  set_fs (<[stagedFile repo := Regular "not a sequence"]> (fs initialized))
    initialized.

(** After [commet add b.txt] on [committed]. *)
Definition restaged : World := (Repo.Add repo "b.txt" committed).2.

(** After init, add a.txt, status, commit, add b.txt on [fresh]. *)
Definition session : list Op :=
  [OpInit; OpAdd "a.txt"; OpStatus; OpCommit "msg"; OpAdd "b.txt"].

Definition after_session : World :=
  (Repo.Add repo "b.txt"
     (Repo.Commit repo "msg" (Repo.Status repo staged_a).2).2).2.

(** The repository [main] works on, and [fresh] after [commet init]
    there. *)
Definition cwd : Repo := NewRepo "./".
Definition cwd_initialized : World := (Repo.Init cwd fresh).2.

(** A command line without flags. *)
Definition cli (args : list string) : flag.Parsed :=
  flag.mkParsed false false args.

(** Texts for the errors of the libraries. *)
Definition os_text (e : error) : string :=
  match e with
  | PathError ENOENT => "no such file or directory"
  | PathError EEXIST => "file exists"
  | PathError EISDIR => "is a directory"
  | PathError ENOTDIR => "not a directory"
  | PathError EBADF => "bad file descriptor"
  | PathError EIO => "input/output error"
  | _ => "invalid character"
  end.

End Runs.


(* ===================================================================== *)
(** ** Path names *)
(* ===================================================================== *)

Lemma append_cons (c : ascii) (a b : string) :
  String c a +:+ b = String c (a +:+ b).
Proof. reflexivity. Qed.

Lemma append_assoc (a b c : string) : (a +:+ b) +:+ c = a +:+ (b +:+ c).
Proof.
  induction a as [|x a IH]; [reflexivity|].
  rewrite !append_cons. by f_equal.
Qed.

Lemma append_inj_l (a x y : string) : a +:+ x = a +:+ y -> x = y.
Proof.
  induction a as [|c a IH]; [done|].
  rewrite !append_cons. intros [= E]. auto.
Qed.

Lemma length_append (a b : string) :
  String.length (a +:+ b) = String.length a + String.length b.
Proof.
  induction a as [|c a IH]; [reflexivity|].
  rewrite append_cons. simpl. by rewrite IH.
Qed.

Lemma stagedFile_ne_commitDir r : stagedFile r <> commitDir r.
Proof. intros E. apply append_inj_l in E. discriminate. Qed.

Lemma stagedFile_ne_commitFile r h : stagedFile r <> commitFile r h.
Proof.
  unfold stagedFile, commitFile, commitDir, filepath.Join. intros E.
  rewrite append_assoc in E. apply append_inj_l in E. discriminate.
Qed.

Lemma commitDir_ne_commitFile r h : commitDir r <> commitFile r h.
Proof.
  unfold commitFile, filepath.Join. intros E.
  assert (L : String.length (commitDir r) =
              String.length (commitDir r +:+ "/" +:+ h)) by congruence.
  rewrite length_append in L. simpl in L. lia.
Qed.

(* ===================================================================== *)
(** ** Digests *)
(* ===================================================================== *)

Lemma hex_length (s : string) :
  String.length (hex.EncodeToString s) = 2 * String.length s.
Proof. induction s as [|c s IH]; simpl; [done | rewrite IH; lia]. Qed.

Lemma hex_digit_hi (c : ascii) :
  hex.is_digit (hex.digit (N.shiftr (N_of_ascii c) 4)) = true.
Proof. destruct c as [[] [] [] [] [] [] [] []]; reflexivity. Qed.

Lemma hex_digit_lo (c : ascii) :
  hex.is_digit (hex.digit (N.land (N_of_ascii c) 15)) = true.
Proof. destruct c as [[] [] [] [] [] [] [] []]; reflexivity. Qed.

Lemma hex_digits (s : string) :
  forallb hex.is_digit (String.list_ascii_of_string (hex.EncodeToString s)) = true.
Proof.
  induction s as [|c s IH]; [done|].
  cbn [hex.EncodeToString String.list_ascii_of_string forallb].
  by rewrite hex_digit_hi, hex_digit_lo, IH.
Qed.

Lemma length_string_of_list_ascii (l : list ascii) :
  String.length (String.string_of_list_ascii l) = length l.
Proof. induction l as [|c l IH]; simpl; [done | by rewrite IH]. Qed.

Lemma sha1_Sum_length (data : string) : String.length (sha1.Sum data) = 20.
Proof.
  unfold sha1.Sum, sha1.string_of_bytes.
  rewrite length_string_of_list_ascii, length_map. reflexivity.
Qed.

Lemma sha1_hex_length (data : string) : String.length (sha1_hex data) = 40.
Proof. unfold sha1_hex. by rewrite hex_length, sha1_Sum_length. Qed.

Example sha1_hex_abc :
  sha1_hex "abc" = "a9993e364706816aba3e25717850c26c9cd0d89d".
Proof. vm_compute. reflexivity. Qed.

Example sha1_hex_empty :
  sha1_hex "" = "da39a3ee5e6b4b0d3255bfef95601890afd80709".
Proof. vm_compute. reflexivity. Qed.

Example sha1_hex_two_blocks :
  sha1_hex "abcdbcdecdefdefgefghfghighijhijkijkljklmklmnlmnomnopnopq"
  = "84983e441c3bd26ebaae4aa1f95129e5e54670f1".
Proof. vm_compute. reflexivity. Qed.

(* ===================================================================== *)
(** ** Text *)
(* ===================================================================== *)

Lemma coerce_from_valid (s : string) : forall k,
  utf8.valid_from k s = true -> coerce_from k s = s.
Proof.
  induction s as [|c s IH]; intros k; [done|].
  cbn [utf8.valid_from coerce_from]. destruct k as [|k].
  - destruct (utf8.width c s) as [n|]; [|done]. intros Hv. by rewrite IH.
  - intros Hv. by rewrite IH.
Qed.

(** A string that is valid UTF-8 goes through [encoding/json] unchanged. *)
Lemma coerce_valid (s : string) : utf8.ValidString s = true -> coerce s = s.
Proof. apply coerce_from_valid. Qed.

Lemma width_ascii (c : ascii) (rest : string) :
  (N_of_ascii c <? 128)%N = true -> utf8.width c rest = Some 1.
Proof. intros Hc. unfold utf8.width, utf8.first. by rewrite Hc. Qed.

Lemma valid_ascii (s : string) :
  forallb (fun c => (N_of_ascii c <? 128)%N) (String.list_ascii_of_string s) = true ->
  utf8.ValidString s = true.
Proof.
  unfold utf8.ValidString. induction s as [|c s IH]; [done|].
  cbn [String.list_ascii_of_string forallb utf8.valid_from].
  intros [Hc Hs]%andb_true_iff. rewrite (width_ascii _ _ Hc). by apply IH.
Qed.

Lemma hex_digit_ascii (n : N) : (N_of_ascii (hex.digit n) <? 128)%N = true.
Proof.
  unfold hex.digit. generalize (N.to_nat n). intros k.
  do 16 (destruct k as [|k]; [reflexivity|]). by destruct k.
Qed.

Lemma valid_hex (s : string) : utf8.ValidString (hex.EncodeToString s) = true.
Proof.
  apply valid_ascii. induction s as [|c s IH]; [done|].
  cbn [hex.EncodeToString String.list_ascii_of_string forallb].
  by rewrite !hex_digit_ascii, IH.
Qed.

Lemma coerce_sha1_hex (data : string) : coerce (sha1_hex data) = sha1_hex data.
Proof. apply coerce_valid, valid_hex. Qed.

Lemma keys_text_entry (p h : string) : keys_text (entry p h).
Proof.
  unfold keys_text, entry. apply map_Forall_insert_2; [reflexivity|].
  by apply map_Forall_singleton.
Qed.

Lemma coerce_entry_entry (p h : string) :
  coerce_entry (entry p h) = entry (coerce p) (coerce h).
Proof.
  unfold coerce_entry, entry. by rewrite fmap_insert, map_fmap_singleton.
Qed.

Lemma coerce_entry_text (e : gmap string string) :
  text_entry e -> coerce_entry e = e.
Proof.
  intros He. apply map_eq. intros k. unfold coerce_entry.
  rewrite lookup_fmap. destruct (e !! k) as [x|] eqn:E; [|done].
  cbn. f_equal. apply coerce_valid. by destruct (He k x E).
Qed.

Lemma coerce_staged_text (l : list (gmap string string)) :
  Forall text_entry l -> coerce_entry <$> l = l.
Proof.
  induction 1 as [|e l He _ IH]; [done|].
  cbn. by rewrite coerce_entry_text, IH.
Qed.

Lemma text_entry_keys (e : gmap string string) : text_entry e -> keys_text e.
Proof. intros He k x Hk. by destruct (He k x Hk). Qed.

Lemma path_of_coerce_entry (e : gmap string string) :
  path_of (coerce_entry e) = coerce (path_of e).
Proof.
  unfold path_of, coerce_entry. rewrite lookup_fmap.
  by destruct (e !! "path").
Qed.

Lemma valid_sha1_hex (data : string) : utf8.ValidString (sha1_hex data) = true.
Proof. apply valid_hex. Qed.

Lemma map_coerce_valid (ps : list string) :
  Forall (fun p => utf8.ValidString p = true) ps -> map coerce ps = ps.
Proof.
  induction 1 as [|p ps Hp _ IH]; [done|].
  cbn [map]. by rewrite (coerce_valid _ Hp), IH.
Qed.

Section Properties.
Context `{JSON}.

(** The text of an error of [os] or [encoding/json], as in [Error]. *)
Variable lib_text : error -> string.

(** Symbolic execution: the calls of an operation are resolved in program
    order, one case split per way a call can end. *)
Ltac unfold_ops :=
  unfold Repo.Init, Repo.Add, Repo.Commit, Repo.Status, Repo.HashFile,
    json.Decode, json.Encode, json.Marshal, os.WriteFile, os.Stat, os.Open,
    os.ReadAll, os.Create, os.Write, os.Mkdir, os.MkdirAll, os.Remove,
    os.IsNotExist, time.Now_String, fmt.Println, bind, ret.

Ltac reduce :=
  cbn [fs faults clock trace stdout log set_fs fst snd negb
       Hash Message Timestamp Files].

Ltac names r :=
  pose proof (stagedFile_ne_commitDir r);
  pose proof (stagedFile_ne_commitFile r);
  pose proof (commitDir_ne_commitFile r).

Ltac simpl_fs :=
  repeat first
    [ rewrite lookup_insert_eq
    | rewrite lookup_delete_eq
    | rewrite lookup_singleton_eq
    | rewrite lookup_insert_ne by (done || congruence)
    | rewrite lookup_delete_ne by (done || congruence)
    | rewrite lookup_singleton_ne by (done || congruence) ].

Ltac use_known :=
  repeat match goal with
  | E : fs ?w !! ?n = _ |- context [fs ?w !! ?n] => rewrite E
  end.

Ltac split_call :=
  match goal with
  | |- context [match fault_at ?w ?c with _ => _ end] =>
      destruct (fault_at w c) eqn:?
  | |- context [match faults ?w ?n ?c with _ => _ end] =>
      destruct (faults w n c) eqn:?
  | |- context [match fs ?w !! ?n with _ => _ end] =>
      destruct (fs w !! n) as [[|?]|] eqn:?
  | |- context [match decode_staged ?d with _ => _ end] =>
      destruct (decode_staged d) eqn:?
  end.

Ltac step :=
  first [progress reduce | progress simpl_fs | progress use_known | split_call].

Ltac run := unfold_ops; repeat step.

(** The same where [os.Stat] of the staging file is known to answer. *)
Ltac run_with Hst :=
  unfold_ops; unfold fault_at;
  repeat first [progress reduce | rewrite Hst | step].

Lemma append_nil_l (s : string) : "" +:+ s = s.
Proof. reflexivity. Qed.

Ltac events :=
  unfold new_events; reduce; rewrite <- ?app_assoc, ?drop_app_length;
  cbn [app].

Ltac walk Hi i :=
  cbn [lookup list_lookup] in Hi;
  first [ discriminate Hi
        | destruct i as [|i];
          [ cbn [lookup list_lookup] in Hi; try discriminate Hi | walk Hi i ] ].

Ltac mem Hin :=
  repeat (apply elem_of_cons in Hin as [Hin|Hin]; [try discriminate Hin|]);
  try (by apply elem_of_nil in Hin).

(** The position of [Add]'s [os.Stat] in the history: it follows the open
    and the read of [HashFile]. *)
Ltac stat_index :=
  unfold fault_at in *;
  cbn [fs faults clock trace stdout log set_fs] in *;
  rewrite <- ?app_assoc, ?length_app in *; cbn [app length] in *;
  rewrite <- ?Nat.add_assoc in *; cbn [Nat.add] in *.

(** What a staging file written by [Add] is read back as. *)
Lemma decode_encode_entry l p h :
  Forall text_entry l -> utf8.ValidString h = true ->
  decode_staged (encode_staged (l ++ [entry p h])) =
    Some (l ++ [entry (coerce p) h]).
Proof.
  intros Hl Hh. rewrite decode_encode_staged.
  - rewrite fmap_app, coerce_staged_text by done. cbn [fmap list_fmap].
    by rewrite coerce_entry_entry, (coerce_valid h).
  - apply Forall_app. split.
    + eapply Forall_impl; [exact Hl|]. apply text_entry_keys.
    + repeat constructor. apply keys_text_entry.
Qed.

(** Every way [Add] can end, and what it leaves in the staging file. *)
Lemma Add_outcome r p w :
  match Repo.Add r p w with
  | (None, w') =>
      exists l data,
        fs w !! p = Some (Regular data) /\
        loaded r w l /\ Forall text_entry l /\
        fs w' = <[stagedFile r :=
                   Regular (encode_staged (l ++ [entry p (sha1_hex data)]))]> (fs w) /\
        stdout w' = stdout w ++ ["Added " +:+ p +:+ " to staging area"]
  | (Some _, w') =>
      stdout w' = stdout w
  end.
Proof.
  run.
  all: try reflexivity.
  all: rewrite ?append_nil_l, ?insert_insert_eq.
  all: match goal with
       | |- context [Regular (encode_staged (?l ++ _))] => exists l
       end.
  all: unfold loaded, staging; stat_index.
  all: eexists; split; [reflexivity|].
  all: repeat match goal with
       | E : faults _ _ _ = _ |- _ => rewrite E
       | E : fs _ !! _ = _ |- _ => rewrite E
       end.
  all: split; [done|]; split; [|split; reflexivity].
  all: eauto using decode_staged_text.
Qed.

(** [Add] writes to the staging file and to nothing else. *)
Lemma Add_frame r p w q :
  q <> stagedFile r -> fs (Repo.Add r p w).2 !! q = fs w !! q.
Proof. intros Hq. run; done. Qed.

(** C8.  Whatever its outcome, [Add] leaves the commit log unchanged: the
    commit directory, every commit file and so every stored record are
    after the call what they were before.  Whatever its outcome, [Commit]
    adds no staged entry: the staging file is left as it was or removed,
    so the staged sequence is the previous one or empty. *)
Theorem Add_keeps_log_Commit_keeps_staging r p m w :
  fs (Repo.Add r p w).2 !! commitDir r = fs w !! commitDir r /\
  (forall h, fs (Repo.Add r p w).2 !! commitFile r h = fs w !! commitFile r h) /\
  (forall h, commit_log r (Repo.Add r p w).2 h = commit_log r w h) /\
  (fs (Repo.Commit r m w).2 !! stagedFile r = fs w !! stagedFile r \/
   fs (Repo.Commit r m w).2 !! stagedFile r = None) /\
  (staging r (Repo.Commit r m w).2 = staging r w \/
   staging r (Repo.Commit r m w).2 = Some []).
Proof.
  names r.
  assert (C : fs (Repo.Commit r m w).2 !! stagedFile r = fs w !! stagedFile r \/
              fs (Repo.Commit r m w).2 !! stagedFile r = None).
  { run; auto. }
  split; [apply Add_frame; congruence|].
  split; [intros h; apply Add_frame; congruence|]. split.
  - intros h. unfold commit_log. rewrite Add_frame; [done | congruence].
  - split; [exact C|]. unfold staging.
    destruct C as [-> | ->]; auto.
Qed.

Lemma Init_ok r w w1 :
  Repo.Init r w = (None, w1) ->
  fs w !! VcsDir r = None /\
  w1 = mkWorld (<[VcsDir r := Directory]> (fs w)) (faults w) (clock w)
         (trace w ++ [Ev (SysStat (VcsDir r)) false; Ev (SysMkdir (VcsDir r)) true])
         (stdout w ++ ["Initialized empty repository in " +:+ RepoDir r]).
Proof.
  unfold_ops. repeat step; try discriminate.
  intros [= <-]. by rewrite <- app_assoc.
Qed.

(** C9.  When a first [Init] has succeeded, a second [Init] on the same
    root returns the already-initialized error and changes nothing: the
    file system and the output are those the first call left, the control
    directory is still there, and over both calls it was created by
    exactly one [os.Mkdir]. *)
Theorem Init_twice r w w1 :
  Repo.Init r w = (None, w1) ->
  (Repo.Init r w1).1 = Some AlreadyInitializedError /\
  fs (Repo.Init r w1).2 = fs w1 /\
  stdout (Repo.Init r w1).2 = stdout w1 /\
  fs (Repo.Init r w1).2 !! VcsDir r = Some Directory /\
  length (List.filter (is_mkdir (VcsDir r))
            (new_events w (Repo.Init r w1).2)) = 1.
Proof.
  intros [_ ->]%Init_ok. run.
  all: repeat split.
  all: events; cbn [List.filter is_mkdir length].
  all: by rewrite bool_decide_eq_true_2.
Qed.

(** C4.  In every run of [Commit], a call that removes a file removes the
    staging file and comes after a successful write of the whole commit
    record to its commit file, which is still there when [Commit]
    returns: the staging area is never cleared unless the record was
    saved first. *)
Theorem Commit_saves_before_clearing r m w i name b :
  new_events w (Repo.Commit r m w).2 !! i = Some (Ev (SysRemove name) b) ->
  name = stagedFile r /\
  exists j c,
    j < i /\ Message c = m /\
    new_events w (Repo.Commit r m w).2 !! j =
      Some (Ev (SysWrite (commitFile r (Hash c)) (json.Marshal c)) true) /\
    fs (Repo.Commit r m w).2 !! commitFile r (Hash c) =
      Some (Regular (json.Marshal c)).
Proof.
  names r. run.
  all: events.
  all: intros Hi; walk Hi i.
  all: injection Hi as <- <-; split; [done|].
  all: eexists 6, (mkCommit _ m _ []); split; [lia|]; split; [done|].
  all: split; [reflexivity|]; reduce; simpl_fs; reflexivity.
Qed.

(** C3, as the code has it.  A successful [Commit] writes, under its hash,
    the record whose hash is the 40-digit hexadecimal SHA-1 of the message
    followed by a first reading of the clock, and whose timestamp is a
    second, later reading; the log then gives that record back, message
    and timestamp as [encoding/json] stores them.  The hash is the digest
    of (message, timestamp) when the two readings coincide. *)
Theorem Commit_hash_from_first_clock_reading r m w w' :
  Repo.Commit r m w = (None, w') ->
  let t1 := clock w (length (trace w) + 2) in
  let t2 := clock w (length (trace w) + 3) in
  let c := mkCommit (sha1_hex (m +:+ t1)) m t2 [] in
  fs w' !! commitFile r (Hash c) = Some (Regular (json.Marshal c)) /\
  commit_log r w' (Hash c) = Some (mkCommit (Hash c) (coerce m) (coerce t2) []) /\
  (utf8.ValidString m = true -> utf8.ValidString t2 = true ->
   commit_log r w' (Hash c) = Some c) /\
  String.length (Hash c) = 40 /\
  forallb hex.is_digit (String.list_ascii_of_string (Hash c)) = true /\
  (t1 = t2 -> Hash c = sha1_hex (Message c +:+ Timestamp c)).
Proof.
  intros Hc. cbn zeta.
  assert (Hf : fs w' !! commitFile r (sha1_hex (m +:+ clock w (length (trace w) + 2))) =
               Some (Regular (json.Marshal
                 (mkCommit (sha1_hex (m +:+ clock w (length (trace w) + 2))) m
                    (clock w (length (trace w) + 3)) [])))).
  { revert Hc. names r. run; try discriminate.
    all: intros [= <-]; reduce.
    all: rewrite <- ?app_assoc, ?length_app; cbn [app length].
    all: rewrite <- ?Nat.add_assoc; cbn [Nat.add].
    all: simpl_fs; by rewrite append_nil_l. }
  assert (Hl : commit_log r w' (sha1_hex (m +:+ clock w (length (trace w) + 2))) =
               Some (mkCommit (sha1_hex (m +:+ clock w (length (trace w) + 2)))
                       (coerce m) (coerce (clock w (length (trace w) + 3))) [])).
  { unfold commit_log. rewrite Hf. unfold json.Marshal.
    rewrite decode_encode_commit. unfold coerce_commit. cbn [Hash Message Timestamp Files map].
    by rewrite coerce_sha1_hex. }
  cbn [Hash Message Timestamp].
  split; [exact Hf|]. split; [exact Hl|]. split.
  { intros Hm Ht. by rewrite Hl, (coerce_valid _ Hm), (coerce_valid _ Ht). }
  split; [apply sha1_hex_length|]. split; [apply hex_digits|].
  by intros ->.
Qed.

(** C10.  Once [Commit] has reached the removal of the staging file it
    reports success and prints so, whatever the removal returned; when the
    removal failed the staging file is what it was.  There is a run in
    which [Commit] returns success and the staged sequence on disk is
    still not empty. *)
Theorem Commit_discards_Remove_error :
  (forall r m w b,
     Ev (SysRemove (stagedFile r)) b ∈ new_events w (Repo.Commit r m w).2 ->
     (Repo.Commit r m w).1 = None /\
     stdout (Repo.Commit r m w).2 = stdout w ++ ["Commit successful: " +:+ m] /\
     (b = false ->
      fs (Repo.Commit r m w).2 !! stagedFile r = fs w !! stagedFile r)) /\
  (exists r m w l,
     (Repo.Commit r m w).1 = None /\
     Ev (SysRemove (stagedFile r)) false ∈ new_events w (Repo.Commit r m w).2 /\
     staging r (Repo.Commit r m w).2 = Some l /\ l <> []).
Proof.
  split.
  - intros r m w b. names r. run.
    all: events; intros Hin; mem Hin.
    all: injection Hin as ->; split; [reflexivity|].
    all: split; [reflexivity|]; intros Hb; try discriminate Hb.
    all: reduce; simpl_fs; by use_known.
  - set (r := NewRepo "."). names r.
    assert (D : decode_staged (encode_staged [entry "a.txt" ""]) =
                Some [entry "a.txt" ""]).
    { pose proof (decode_encode_entry [] "a.txt" "") as D.
      cbn [app] in D. rewrite D by done. by rewrite coerce_valid. }
    exists r, "msg",
      (mkWorld {[ stagedFile r := Regular (encode_staged [entry "a.txt" ""]) ]}
         remove_denied (fun _ => "") [] []),
      [entry "a.txt" ""].
    unfold staging. unfold_ops. unfold fault_at, remove_denied.
    repeat first [rewrite D | step].
    split; [reflexivity|]. split; [events; set_solver|].
    split; [reflexivity|discriminate].
Qed.


Lemma print_paths_spec (l : list (gmap string string)) (w : World) :
  print_paths l w =
    (tt, mkWorld (fs w) (faults w) (clock w) (trace w)
           (stdout w ++ map (String.append "- ") (map path_of l))).
Proof.
  revert w. induction l as [|e l IH]; intros w.
  - destruct w; simpl. by rewrite app_nil_r.
  - cbn [print_paths]. unfold bind, fmt.Println. rewrite IH. reduce.
    by rewrite <- app_assoc.
Qed.

(** What a successful [Status] prints. *)
Lemma Status_outcome r w w' :
  Repo.Status r w = (None, w') ->
  exists l, staging r w = Some l /\
            stdout w' = stdout w ++ status_lines (map path_of l).
Proof.
  unfold staging. run; try discriminate.
  all: try match goal with
       | |- context [match ?l with [] => _ | _ :: _ => _ end] =>
           destruct l as [|e l]; reduce; rewrite ?print_paths_spec; reduce
       end.
  all: intros [= <-]; eexists; split; [reflexivity|]; reduce.
  all: by rewrite <- ?app_assoc.
Qed.

Lemma path_of_entry p h : path_of (entry p h) = p.
Proof. reflexivity. Qed.

(** No operation changes the fault oracle. *)
Lemma faults_kept r op w : faults (exec r op w).2 = faults w.
Proof.
  names r. destruct op; cbn [exec]; run.
  all: try match goal with
       | |- context [match ?l with [] => _ | _ :: _ => _ end] =>
           destruct l; reduce; rewrite ?print_paths_spec; reduce
       end.
  all: reflexivity.
Qed.

Lemma Stat_answers_kept r op w :
  Stat_answers r w -> Stat_answers r (exec r op w).2.
Proof. intros Hst n. rewrite faults_kept. apply Hst. Qed.

(** What is read from the staging file is text. *)
Lemma staging_text r w l : staging r w = Some l -> Forall text_entry l.
Proof.
  unfold staging. destruct (fs w !! stagedFile r) as [[|data]|]; [done| |].
  - apply decode_staged_text.
  - by intros [= <-].
Qed.

(** The staged sequence after an [Add] that succeeds where [os.Stat]
    answers. *)
Lemma Add_staging r p w w' l :
  Stat_answers r w -> staging r w = Some l ->
  Repo.Add r p w = (None, w') ->
  exists h, staging r w' = Some (l ++ [entry (coerce p) h]).
Proof.
  intros Hst Hl Ha. pose proof (Add_outcome r p w) as O. rewrite Ha in O.
  destruct O as (l0 & data & _ & Hl0 & Ht & Hf & _).
  unfold loaded in Hl0. rewrite Hst in Hl0.
  assert (l0 = l) as -> by congruence.
  exists (sha1_hex data). unfold staging. rewrite Hf, lookup_insert_eq.
  apply decode_encode_entry; [done|apply valid_sha1_hex].
Qed.

Lemma Adds_staging r ps w w' l :
  Stat_answers r w -> staging r w = Some l -> Adds r ps w = Some w' ->
  exists es, staging r w' = Some (l ++ es) /\ map path_of es = map coerce ps.
Proof.
  revert w l. induction ps as [|p ps IH]; intros w l Hst Hl.
  - intros [= <-]. exists []. by rewrite app_nil_r.
  - cbn [Adds]. destruct (Repo.Add r p w) as [[e|] w1] eqn:Ha; [done|].
    intros Hps. destruct (Add_staging _ _ _ _ _ Hst Hl Ha) as (h & Hl1).
    assert (Hst1 : Stat_answers r w1).
    { pose proof (Stat_answers_kept r (OpAdd p) w Hst) as S.
      cbn [exec] in S. by rewrite Ha in S. }
    destruct (IH _ _ Hst1 Hl1 Hps) as (es & Hes & Hmap).
    exists (entry (coerce p) h :: es). split.
    + by rewrite Hes, <- app_assoc.
    + cbn [map]. by rewrite path_of_entry, Hmap.
Qed.

Lemma Status_without_staging_file r w :
  fs w !! stagedFile r = None ->
  fault_at w (SysStat (stagedFile r)) = None ->
  (Repo.Status r w).1 = None /\
  stdout (Repo.Status r w).2 = stdout w ++ ["No changes staged."].
Proof. intros Hs Hst. unfold_ops. rewrite Hst. repeat step. done. Qed.

(** The absent half of C2: without a staging file [Commit] fails with
    the nothing-to-commit error and writes nothing. *)
Lemma Commit_without_staging_file r m w :
  fs w !! stagedFile r = None ->
  (Repo.Commit r m w).1 = Some NothingToCommitError /\
  fs (Repo.Commit r m w).2 = fs w.
Proof. intros Hs. run; done. Qed.

Lemma VcsDir_ne_stagedFile r : VcsDir r <> stagedFile r.
Proof.
  unfold stagedFile, filepath.Join. intros E.
  assert (L : String.length (VcsDir r) =
              String.length (VcsDir r +:+ "/" +:+ "staged.json"))
    by congruence.
  rewrite length_append in L. simpl in L. lia.
Qed.

(** X25.  The staging area is empty before any [Add]: nothing lies under
    a control directory that [Init] has just created, and [Status], when
    its [os.Stat] answers, then prints the no-changes line. *)
Lemma Status_after_Init r w w1 :
  Repo.Init r w = (None, w1) ->
  (fs w !! VcsDir r = None -> fs w !! stagedFile r = None) ->
  Stat_answers r w ->
  staging r w1 = Some [] /\
  (Repo.Status r w1).1 = None /\
  stdout (Repo.Status r w1).2 = stdout w1 ++ ["No changes staged."].
Proof.
  intros [Hv ->]%Init_ok Htree Hst. specialize (Htree Hv).
  assert (Hs : fs (mkWorld (<[VcsDir r := Directory]> (fs w)) (faults w)
                     (clock w)
                     (trace w ++ [Ev (SysStat (VcsDir r)) false;
                                  Ev (SysMkdir (VcsDir r)) true])
                     (stdout w ++ ["Initialized empty repository in " +:+ RepoDir r]))
               !! stagedFile r = None).
  { reduce. by rewrite lookup_insert_ne by apply VcsDir_ne_stagedFile. }
  split; [unfold staging; by rewrite Hs|].
  apply Status_without_staging_file; [exact Hs|]. apply Hst.
Qed.

(** X26.  A [Commit] whose removal of the staging file succeeded has
    succeeded and the staging area is empty after it; [Status], when its
    [os.Stat] answers, then says so. *)
Lemma Commit_then_Status_when_removed r m w :
  Ev (SysRemove (stagedFile r)) true ∈ new_events w (Repo.Commit r m w).2 ->
  Stat_answers r w ->
  (Repo.Commit r m w).1 = None /\
  staging r (Repo.Commit r m w).2 = Some [] /\
  (Repo.Status r (Repo.Commit r m w).2).1 = None /\
  stdout (Repo.Status r (Repo.Commit r m w).2).2 =
    stdout (Repo.Commit r m w).2 ++ ["No changes staged."].
Proof.
  intros Hin Hst.
  assert (Hs : (Repo.Commit r m w).1 = None /\
               fs (Repo.Commit r m w).2 !! stagedFile r = None).
  { revert Hin. names r. run.
    all: events; intros Hin; mem Hin.
    all: try discriminate Hin.
    all: split; [reflexivity|]; reduce; by simpl_fs. }
  destruct Hs as [Hc Hs]. split; [exact Hc|].
  split; [unfold staging; by rewrite Hs|].
  apply Status_without_staging_file; [exact Hs|].
  apply (Stat_answers_kept r (OpCommit m) w Hst).
Qed.

(** C7, as the code has it.  From an empty staging area, after a sequence
    of [Add] calls that all succeed and whose [os.Stat] of the staging
    file answered, a [Status] that succeeds prints the added paths in the
    order of the calls and as many times as they were added, each as
    [encoding/json] stores it: a path that is valid UTF-8 as it was
    given. *)
Theorem Status_lists_added_paths r ps w w' :
  staging r w = Some [] ->
  Stat_answers r w ->
  Adds r ps w = Some w' ->
  (Repo.Status r w').1 = None ->
  stdout (Repo.Status r w').2 = stdout w' ++ status_lines (map coerce ps) /\
  (Forall (fun p => utf8.ValidString p = true) ps ->
   stdout (Repo.Status r w').2 = stdout w' ++ status_lines ps).
Proof.
  intros Hw Hsa Hadds Hst.
  destruct (Adds_staging _ _ _ _ _ Hsa Hw Hadds) as (es & Hes & Hmap).
  destruct (Repo.Status r w') as [e w''] eqn:E. simpl in *. subst e.
  destruct (Status_outcome _ _ _ E) as (l & Hl & ->).
  rewrite Hes in Hl. injection Hl as <-. rewrite Hmap.
  split; [done|]. intros Hv. by rewrite (map_coerce_valid _ Hv).
Qed.

Lemma commitFile_inj r h h' : commitFile r h = commitFile r h' -> h = h'.
Proof.
  unfold commitFile, filepath.Join. intros E.
  apply append_inj_l in E. by injection E.
Qed.


(** X2.  [HashFile] fails on a path that is missing or names a
    directory, and changes neither the file system nor the output. *)
Theorem HashFile_fails_without_regular_file r p w :
  fs w !! p = None \/ fs w !! p = Some Directory ->
  (exists e, (Repo.HashFile r p w).1 = Err e) /\
  fs (Repo.HashFile r p w).2 = fs w /\
  stdout (Repo.HashFile r p w).2 = stdout w.
Proof.
  intros [Hp|Hp]; run; eauto.
Qed.

(** X3.  Whatever lies at the control directory's name, a directory or a
    regular file, [Init] answers already-initialized after the one
    [os.Stat], whether that call succeeds or not: no directory is made,
    nothing is printed. *)
Theorem Init_existing_entry r w n :
  fs w !! VcsDir r = Some n ->
  Repo.Init r w =
    (Some AlreadyInitializedError,
     log (SysStat (VcsDir r))
       match fault_at w (SysStat (VcsDir r)) with
       | None => true
       | Some _ => false
       end w).
Proof. intros Hn. run; reflexivity. Qed.

(** X4.  An [Init] that fails changes nothing and prints nothing.  Its
    error is already-initialized when [os.Stat] reports anything but a
    missing file, that is when the name is taken or the call itself
    failed, and no [os.Mkdir] is then made; it is the wrapped [os.Mkdir]
    error when [os.Stat] answered that the name is free. *)
Theorem Init_failure_changes_nothing r w e :
  (Repo.Init r w).1 = Some e ->
  fs (Repo.Init r w).2 = fs w /\
  stdout (Repo.Init r w).2 = stdout w /\
  (e = AlreadyInitializedError /\
   (is_Some (fs w !! VcsDir r) \/ is_Some (fault_at w (SysStat (VcsDir r)))) /\
   (exists b, new_events w (Repo.Init r w).2 = [Ev (SysStat (VcsDir r)) b]) \/
   exists c, e = InitError c /\ fs w !! VcsDir r = None /\
             fault_at w (SysStat (VcsDir r)) = None).
Proof.
  run; try discriminate; intros [= <-].
  all: split; [reflexivity|]; split; [reflexivity|].
  all: first [ right; eexists; by repeat split
             | left; split; [reflexivity|]; split; [by eauto|];
               events; by eexists ].
Qed.

(** X5.  [Add] of a path that is missing or names a directory returns the
    error of [os], creates no staging file and prints nothing. *)
Theorem Add_unreadable_file r p w :
  fs w !! p = None \/ fs w !! p = Some Directory ->
  (exists e, (Repo.Add r p w).1 = Some (PathError e)) /\
  fs (Repo.Add r p w).2 = fs w /\
  stdout (Repo.Add r p w).2 = stdout w.
Proof.
  intros [Hp|Hp]; run; eauto.
Qed.

(** X6.  When the staging file cannot be read as a sequence (it does not
    parse, or is a directory) and [os.Stat] of it answers, [Add] fails
    and leaves it as it is: a corrupt staging file that [Add] has seen is
    not overwritten. *)
Theorem Add_unreadable_staging r p w :
  staging r w = None ->
  Stat_answers r w ->
  (Repo.Add r p w).1 <> None /\
  fs (Repo.Add r p w).2 = fs w /\
  stdout (Repo.Add r p w).2 = stdout w.
Proof.
  unfold staging. intros Hs Hst. revert Hs.
  run_with Hst; try discriminate; done.
Qed.

(** X7.  A successful [Add] whose [os.Stat] of the staging file answered
    changes one file, the staging file, which then holds the encoding of
    the previous sequence followed by the entry of the path with the
    SHA-1 of the bytes the file had, and prints one line. *)
Theorem Add_effect r p w w' :
  Repo.Add r p w = (None, w') ->
  Stat_answers r w ->
  exists l data,
    fs w !! p = Some (Regular data) /\
    staging r w = Some l /\
    fs w' = <[stagedFile r :=
               Regular (encode_staged (l ++ [entry p (sha1_hex data)]))]> (fs w) /\
    stdout w' = stdout w ++ ["Added " +:+ p +:+ " to staging area"].
Proof.
  intros Ha Hst. pose proof (Add_outcome r p w) as O. rewrite Ha in O.
  destruct O as (l & data & Hp & Hl & _ & Hf & Ho).
  unfold loaded in Hl. rewrite Hst in Hl. by exists l, data.
Qed.

(** X27.  When [os.Stat] of the staging file fails, [Add] does not load
    the file: if it then succeeds, the staging file holds the new entry
    alone, whatever it held before. *)
Theorem Add_when_Stat_fails r p w w' :
  Repo.Add r p w = (None, w') ->
  is_Some (faults w (length (trace w) + 2) (SysStat (stagedFile r))) ->
  exists data,
    fs w !! p = Some (Regular data) /\
    fs w' !! stagedFile r =
      Some (Regular (encode_staged [entry p (sha1_hex data)])) /\
    staging r w' = Some [entry (coerce p) (sha1_hex data)].
Proof.
  intros Ha [k Hk]. pose proof (Add_outcome r p w) as O. rewrite Ha in O.
  destruct O as (l & data & Hp & Hl & _ & Hf & _).
  unfold loaded in Hl. rewrite Hk in Hl. subst l. cbn [app] in Hf.
  exists data. split; [done|].
  assert (Hs : fs w' !! stagedFile r =
               Some (Regular (encode_staged [entry p (sha1_hex data)])))
    by (by rewrite Hf, lookup_insert_eq).
  split; [exact Hs|]. unfold staging. rewrite Hs.
  by apply (decode_encode_entry []), valid_sha1_hex.
Qed.

(** X8.  Every call [Add] makes is a stat, open or read, or a create or
    write of the staging file: it never reads the clock, makes a
    directory, removes a file or writes anywhere else. *)
Theorem Add_calls r p w e :
  e ∈ new_events w (Repo.Add r p w).2 ->
  is_read e || (is_store e && on_file (stagedFile r) e) = true.
Proof.
  run.
  all: events; intros Hin; mem Hin.
  all: subst e; cbn [is_read is_store on_file call orb andb]; try reflexivity.
  all: by rewrite bool_decide_eq_true_2.
Qed.

(** X9.  [Status] is read-only: whatever its outcome the file system is
    unchanged and its calls are stat, open and read of the staging file;
    when it fails it prints nothing. *)
Theorem Status_read_only r w :
  fs (Repo.Status r w).2 = fs w /\
  (forall e, e ∈ new_events w (Repo.Status r w).2 ->
             is_read e && on_file (stagedFile r) e = true) /\
  ((Repo.Status r w).1 <> None -> stdout (Repo.Status r w).2 = stdout w).
Proof.
  run.
  all: try match goal with
       | |- context [match ?l with [] => _ | _ :: _ => _ end] =>
           destruct l; reduce; rewrite ?print_paths_spec; reduce
       end.
  all: split; [reflexivity|]; split; [|try done].
  all: intros e; events; intros Hin; mem Hin.
  all: subst e; cbn [is_read on_file call andb].
  all: by rewrite bool_decide_eq_true_2.
Qed.

(** X10.  Without faults, [Status] succeeds whenever the staging file is
    absent or parses, and prints the no-changes line for an absent file
    and for an empty sequence alike, otherwise the header and one line
    per entry, an entry without a path key giving an empty path. *)
Theorem Status_reports r w l :
  staging r w = Some l ->
  (forall n c, faults w n c = None) ->
  (Repo.Status r w).1 = None /\
  stdout (Repo.Status r w).2 = stdout w ++ status_lines (map path_of l).
Proof.
  unfold staging. intros Hl Hf. unfold_ops. unfold fault_at.
  repeat first [progress reduce | rewrite Hf | progress simpl_fs
               | progress use_known | split_call]; try discriminate.
  - injection Hl as ->. destruct l as [|e l]; reduce.
    + done.
    + rewrite print_paths_spec. reduce. split; [done|].
      by rewrite <- app_assoc.
  - by injection Hl as <-.
Qed.

(** X11.  When the staging file cannot be read as a sequence [Status]
    returns an error and prints nothing. *)
Theorem Status_unreadable_staging r w :
  staging r w = None ->
  (Repo.Status r w).1 <> None /\
  stdout (Repo.Status r w).2 = stdout w.
Proof.
  unfold staging. run; try discriminate; done.
Qed.

(** X12.  A [Commit] that returns an error leaves the staging file as it
    was and prints nothing: staged entries are never lost by a failed
    commit. *)
Theorem Commit_failure_keeps_staging r m w e :
  (Repo.Commit r m w).1 = Some e ->
  fs (Repo.Commit r m w).2 !! stagedFile r = fs w !! stagedFile r /\
  stdout (Repo.Commit r m w).2 = stdout w.
Proof.
  names r. run; try discriminate; done.
Qed.

(** X13.  [Commit] touches no commit file but the one named by the hash
    it computes: every record stored under another hash is after the
    call what it was before, whatever the outcome. *)
Theorem Commit_keeps_other_commits r m w h :
  h <> sha1_hex (m +:+ clock w (length (trace w) + 2)) ->
  fs (Repo.Commit r m w).2 !! commitFile r h = fs w !! commitFile r h /\
  commit_log r (Repo.Commit r m w).2 h = commit_log r w h.
Proof.
  intros Hh.
  assert (A : fs (Repo.Commit r m w).2 !! commitFile r h = fs w !! commitFile r h).
  { names r.
    assert (Hne : commitFile r
                    (sha1_hex (m +:+ clock w
                       (length ((trace w ++ [Ev (SysOpen (stagedFile r)) true])
                                ++ [Ev (SysRead (stagedFile r)) true]))))
                  <> commitFile r h).
    { intros E%commitFile_inj. apply Hh. rewrite <- E.
      rewrite !length_app. cbn [length]. do 3 f_equal. lia. }
    run; done. }
  split; [exact A|]. unfold commit_log. by rewrite A.
Qed.

(** X14.  When the staging file cannot be read as a sequence [Commit]
    fails before it writes anything: file system and output are
    unchanged. *)
Theorem Commit_unreadable_staging r m w :
  staging r w = None ->
  (Repo.Commit r m w).1 <> None /\
  fs (Repo.Commit r m w).2 = fs w /\
  stdout (Repo.Commit r m w).2 = stdout w.
Proof.
  unfold staging. run; try discriminate; done.
Qed.

(** The staging file is gone after a run of [Commit] that removed it. *)
Lemma Commit_removed r m w :
  Ev (SysRemove (stagedFile r)) true ∈ new_events w (Repo.Commit r m w).2 ->
  fs (Repo.Commit r m w).2 !! stagedFile r = None.
Proof.
  names r. run.
  all: events; intros Hin; mem Hin; try discriminate Hin.
  all: reduce; by simpl_fs.
Qed.

(** X15.  After a [Commit] that removed the staging file, a second
    [Commit] fails with the nothing-to-commit error and writes
    nothing. *)
Theorem Commit_twice r m m' w :
  Ev (SysRemove (stagedFile r)) true ∈ new_events w (Repo.Commit r m w).2 ->
  (Repo.Commit r m' (Repo.Commit r m w).2).1 = Some NothingToCommitError /\
  fs (Repo.Commit r m' (Repo.Commit r m w).2).2 = fs (Repo.Commit r m w).2.
Proof.
  intros Hin. apply Commit_without_staging_file. by apply Commit_removed.
Qed.

(** X16.  After a [Commit] that removed the staging file, a successful
    [Add] starts a new sequence: the staging area holds the one new
    entry, its path as [encoding/json] stores it, which is the path given
    when that is valid UTF-8. *)
Theorem Add_after_Commit r m p w w2 :
  Ev (SysRemove (stagedFile r)) true ∈ new_events w (Repo.Commit r m w).2 ->
  Repo.Add r p (Repo.Commit r m w).2 = (None, w2) ->
  exists h,
    staging r w2 = Some [entry (coerce p) h] /\
    (utf8.ValidString p = true -> staging r w2 = Some [entry p h]).
Proof.
  intros Hin Ha. apply Commit_removed in Hin.
  pose proof (Add_outcome r p (Repo.Commit r m w).2) as O. rewrite Ha in O.
  destruct O as (l & data & _ & Hl & _ & Hf & _).
  assert (l = []) as ->.
  { unfold loaded, staging in Hl. rewrite Hin in Hl.
    destruct (faults _ _ _); congruence. }
  exists (sha1_hex data).
  assert (Hs : staging r w2 = Some [entry (coerce p) (sha1_hex data)]).
  { unfold staging. rewrite Hf, lookup_insert_eq.
    by apply (decode_encode_entry []), valid_sha1_hex. }
  split; [exact Hs|]. intros Hp. by rewrite Hs, (coerce_valid _ Hp).
Qed.

(** [Commit] leaves the staging file as it was or removes it. *)
Lemma Commit_frame_staging r m w :
  fs (Repo.Commit r m w).2 !! stagedFile r = fs w !! stagedFile r \/
  fs (Repo.Commit r m w).2 !! stagedFile r = None.
Proof. names r. run; auto. Qed.

(** [Status] changes no file. *)
Lemma Status_frame r w : fs (Repo.Status r w).2 = fs w.
Proof.
  run.
  all: try match goal with
       | |- context [match ?l with [] => _ | _ :: _ => _ end] =>
           destruct l; reduce; rewrite ?print_paths_spec; reduce
       end.
  all: reflexivity.
Qed.

Lemma exec_staging_ok r op w w' :
  exec r op w = (None, w') -> staging_ok r w -> staging_ok r w'.
Proof.
  destruct op as [|p|m|]; cbn [exec]; intros E Hok.
  - apply Init_ok in E as [_ ->]. unfold staging_ok, staging in *. reduce.
    by rewrite lookup_insert_ne by apply VcsDir_ne_stagedFile.
  - pose proof (Add_outcome r p w) as O. rewrite E in O.
    destruct O as (l & data & _ & _ & Ht & Hf & _).
    right. exists (l ++ [entry (coerce p) (sha1_hex data)]). split.
    + unfold staging. rewrite Hf, lookup_insert_eq.
      by apply decode_encode_entry, valid_sha1_hex.
    + by destruct l.
  - pose proof (Commit_frame_staging r m w) as C. rewrite E in C.
    cbn [snd] in C. unfold staging_ok, staging in *.
    destruct C as [-> | ->]; auto.
  - pose proof (Status_frame r w) as S. rewrite E in S.
    cbn [snd] in S. unfold staging_ok, staging in *. by rewrite S.
Qed.

(** X17.  Through any sequence of calls of [Init], [Add], [Commit] and
    [Status] that all succeed, this is kept: the staging file is absent
    or holds a sequence that is not empty.  So in a state reached that
    way a [Commit] that succeeds has at least one staged entry. *)
Theorem execs_staging_ok r ops w w' :
  staging_ok r w -> execs r ops w = Some w' ->
  staging_ok r w' /\
  (forall m, (Repo.Commit r m w').1 = None ->
             exists l, staging r w' = Some l /\ l <> []).
Proof.
  intros Hok Hex.
  assert (Hok' : staging_ok r w').
  { revert w Hok Hex. induction ops as [|op ops IH]; intros w Hok.
    - by intros [= <-].
    - cbn [execs]. destruct (exec r op w) as [[e|] w1] eqn:E; [done|].
      apply IH. by eapply exec_staging_ok. }
  split; [exact Hok'|]. intros m Hc.
  destruct Hok' as [Habs | Hne]; [|done].
  destruct (Commit_without_staging_file r m w' Habs) as [Hn _]. congruence.
Qed.

Lemma bind_Println {A} (line : string) (k : unit -> M A) (w : World) :
  bind (fmt.Println line) k w =
    k tt (mkWorld (fs w) (faults w) (clock w) (trace w) (stdout w ++ [line])).
Proof. reflexivity. Qed.

Lemma printHelp_spec (w : World) :
  printHelp w =
    (tt, mkWorld (fs w) (faults w) (clock w) (trace w) (stdout w ++ help_lines)).
Proof.
  unfold printHelp. repeat (rewrite bind_Println; reduce).
  unfold fmt.Println. reduce. unfold help_lines.
  rewrite <- !app_assoc. reflexivity.
Qed.

(** X18.  With [-v], [main] prints the version line and does nothing
    else, whatever the other flag and the arguments are. *)
Theorem main_version f w :
  flag.v f = true ->
  main lib_text f w =
    (tt, mkWorld (fs w) (faults w) (clock w) (trace w)
           (stdout w ++ ["Commet version: 0.1.0"])).
Proof. intros Hv. unfold main. rewrite Hv. reflexivity. Qed.

(** X19.  Without [-v], [main] prints the help text and does nothing
    else when [-help] is given, when there is no argument, and when the
    first argument is none of init, add, commit, status. *)
Theorem main_help f w :
  flag.v f = false ->
  flag.help f = true \/ flag.Args f = [] \/
    (flag.Arg f 0 <> "init" /\ flag.Arg f 0 <> "add" /\
     flag.Arg f 0 <> "commit" /\ flag.Arg f 0 <> "status") ->
  main lib_text f w =
    (tt, mkWorld (fs w) (faults w) (clock w) (trace w) (stdout w ++ help_lines)).
Proof.
  intros Hv Hc. unfold main. rewrite Hv.
  destruct Hc as [Hh | [Ha | (N1 & N2 & N3 & N4)]].
  - rewrite Hh. apply printHelp_spec.
  - unfold flag.NArg. rewrite Ha, orb_true_r. apply printHelp_spec.
  - destruct (flag.help f || (flag.NArg f =? 0)); [apply printHelp_spec|].
    cbn zeta. rewrite !bool_decide_eq_false_2 by done. apply printHelp_spec.
Qed.

(** X20.  [add] and [commit] given without their argument print their
    own error line; no method of the repository is called. *)
Theorem main_missing_argument f w cmd :
  flag.v f = false -> flag.help f = false ->
  flag.Args f = [cmd] ->
  cmd = "add" \/ cmd = "commit" ->
  main lib_text f w =
    (tt, mkWorld (fs w) (faults w) (clock w) (trace w)
           (stdout w ++
              [if bool_decide (cmd = "add")
               then "Error: You must specify a file to add."
               else "Error: You must provide a commit message."])).
Proof.
  intros Hv Hh Ha Hc. unfold main, flag.NArg, flag.Arg.
  rewrite Hv, Hh, Ha. by destruct Hc as [-> | ->].
Qed.

(** X21.  For a command line that names a method and gives it its
    argument, [main] is that one call on the repository of the current
    directory followed by the printing of its error, if any; arguments
    beyond those the method takes are not looked at. *)
Theorem main_runs_command f w op :
  flag.v f = false -> flag.help f = false ->
  command (flag.Args f) = Some op ->
  main lib_text f w =
    (let '(err, w') := exec (NewRepo "./") op w in report lib_text err w').
Proof.
  intros Hv Hh Hc. unfold main, flag.NArg, flag.Arg. rewrite Hv, Hh.
  destruct (flag.Args f) as [|cmd rest]; [done|].
  cbn [command length Nat.eqb orb nth] in *.
  repeat case_bool_decide; try done.
  - by injection Hc as <-.
  - destruct rest as [|p rest]; [done|]. by injection Hc as <-.
  - destruct rest as [|m rest]; [done|]. by injection Hc as <-.
  - by injection Hc as <-.
Qed.

(** X22.  When the command line names no method call ([-v], [-help], no
    argument, an unknown command, a missing argument) [main] makes no
    call to the operating system and changes no file. *)
Theorem main_without_command f w :
  flag.v f = true \/ flag.help f = true \/ command (flag.Args f) = None ->
  trace (main lib_text f w).2 = trace w /\
  fs (main lib_text f w).2 = fs w.
Proof.
  intros Hc. unfold main, flag.NArg, flag.Arg.
  destruct (flag.v f); [done|].
  destruct Hc as [Hc | [Hc | Hc]]; [done | |].
  - rewrite Hc. by rewrite printHelp_spec.
  - destruct (flag.help f); [by rewrite printHelp_spec|].
    destruct (flag.Args f) as [|cmd rest]; [by rewrite printHelp_spec|].
    cbn [command length Nat.eqb orb nth] in *.
    repeat case_bool_decide; try done; try by rewrite printHelp_spec.
    all: by destruct rest.
Qed.

(** X23.  [commit] on a repository without staging file prints the
    nothing-to-commit text and changes no file. *)
Theorem main_commit_nothing_staged f w m rest :
  flag.v f = false -> flag.help f = false ->
  flag.Args f = "commit" :: m :: rest ->
  fs w !! stagedFile (NewRepo "./") = None ->
  stdout (main lib_text f w).2 = stdout w ++ ["no changes to commit"] /\
  fs (main lib_text f w).2 = fs w.
Proof.
  intros Hv Hh Ha Hs. unfold main, flag.NArg, flag.Arg.
  rewrite Hv, Hh, Ha. cbn [length Nat.eqb orb nth Nat.ltb Nat.leb].
  rewrite !bool_decide_eq_false_2 by done.
  rewrite bool_decide_eq_true_2 by done.
  set (r := NewRepo "./") in *. unfold report. run; done.
Qed.

(** X24.  [init] where the control directory's name is taken prints the
    already-initialized text and changes no file. *)
Theorem main_init_again f w n rest :
  flag.v f = false -> flag.help f = false ->
  flag.Args f = "init" :: rest ->
  fs w !! VcsDir (NewRepo "./") = Some n ->
  stdout (main lib_text f w).2 = stdout w ++ ["repository already initialized"] /\
  fs (main lib_text f w).2 = fs w.
Proof.
  intros Hv Hh Ha Hs. unfold main, flag.NArg, flag.Arg.
  rewrite Hv, Hh, Ha. cbn [length Nat.eqb orb nth].
  rewrite bool_decide_eq_true_2 by done.
  set (r := NewRepo "./") in *. unfold report. run; done.
Qed.

End Properties.

(* ===================================================================== *)
(** ** Runs on concrete worlds *)
(* ===================================================================== *)

Section ConcreteRuns.
#[local] Existing Instance RefCodec.codec.

Lemma Init_twice_witness :
  Repo.Init repo fresh = (None, initialized) /\
  ((Repo.Init repo initialized).1 = Some AlreadyInitializedError /\
   fs (Repo.Init repo initialized).2 = fs initialized /\
   stdout (Repo.Init repo initialized).2 = stdout initialized /\
   fs (Repo.Init repo initialized).2 !! VcsDir repo = Some Directory /\
   length (List.filter (is_mkdir (VcsDir repo))
             (new_events fresh (Repo.Init repo initialized).2)) = 1).
Proof.
  assert (Hi : Repo.Init repo fresh = (None, initialized))
    by (vm_compute; reflexivity).
  split; [exact Hi | exact (Init_twice repo fresh initialized Hi)].
Defined.

Lemma Status_lists_added_paths_witness :
  staging repo initialized = Some [] /\
  Stat_answers repo initialized /\
  Adds repo ["a.txt"; "b.txt"; "a.txt"] initialized = Some staged_aba /\
  (Repo.Status repo staged_aba).1 = None /\
  (stdout (Repo.Status repo staged_aba).2 =
     stdout staged_aba ++ status_lines (map coerce ["a.txt"; "b.txt"; "a.txt"]) /\
   (Forall (fun p => utf8.ValidString p = true) ["a.txt"; "b.txt"; "a.txt"] ->
    stdout (Repo.Status repo staged_aba).2 =
      stdout staged_aba ++ status_lines ["a.txt"; "b.txt"; "a.txt"])).
Proof.
  assert (H0 : staging repo initialized = Some []) by (vm_compute; reflexivity).
  assert (Hs : Stat_answers repo initialized) by (intros n; reflexivity).
  assert (H1 : Adds repo ["a.txt"; "b.txt"; "a.txt"] initialized = Some staged_aba)
    by (vm_compute; reflexivity).
  assert (H2 : (Repo.Status repo staged_aba).1 = None)
    by (vm_compute; reflexivity).
  split; [exact H0|]. split; [exact Hs|]. split; [exact H1|]. split; [exact H2|].
  exact (Status_lists_added_paths repo _ initialized staged_aba H0 Hs H1 H2).
Defined.

Lemma Commit_saves_before_clearing_witness :
  new_events staged_a (Repo.Commit repo "msg" staged_a).2 !! 7 =
    Some (Ev (SysRemove (stagedFile repo)) true) /\
  (stagedFile repo = stagedFile repo /\
   exists j c,
     j < 7 /\ Message c = "msg" /\
     new_events staged_a (Repo.Commit repo "msg" staged_a).2 !! j =
       Some (Ev (SysWrite (commitFile repo (Hash c)) (json.Marshal c)) true) /\
     fs (Repo.Commit repo "msg" staged_a).2 !! commitFile repo (Hash c) =
       Some (Regular (json.Marshal c))).
Proof.
  assert (Hr : new_events staged_a (Repo.Commit repo "msg" staged_a).2 !! 7 =
               Some (Ev (SysRemove (stagedFile repo)) true))
    by (vm_compute; reflexivity).
  split; [exact Hr|].
  exact (Commit_saves_before_clearing repo "msg" staged_a 7 _ true Hr).
Defined.

Lemma Commit_hash_from_first_clock_reading_witness :
  Repo.Commit repo "msg" staged_a = (None, committed) /\
  (let t1 := clock staged_a (length (trace staged_a) + 2) in
   let t2 := clock staged_a (length (trace staged_a) + 3) in
   let c := mkCommit (sha1_hex ("msg" +:+ t1)) "msg" t2 [] in
   fs committed !! commitFile repo (Hash c) = Some (Regular (json.Marshal c)) /\
   commit_log repo committed (Hash c) =
     Some (mkCommit (Hash c) (coerce "msg") (coerce t2) []) /\
   (utf8.ValidString "msg" = true -> utf8.ValidString t2 = true ->
    commit_log repo committed (Hash c) = Some c) /\
   String.length (Hash c) = 40 /\
   forallb hex.is_digit (String.list_ascii_of_string (Hash c)) = true /\
   (t1 = t2 -> Hash c = sha1_hex (Message c +:+ Timestamp c))).
Proof.
  assert (Hc : Repo.Commit repo "msg" staged_a = (None, committed))
    by (vm_compute; reflexivity).
  split; [exact Hc|].
  exact (Commit_hash_from_first_clock_reading repo "msg" staged_a committed Hc).
Defined.

Lemma Commit_discards_Remove_error_witness :
  Ev (SysRemove (stagedFile repo)) false
    ∈ new_events stuck (Repo.Commit repo "msg" stuck).2 /\
  ((Repo.Commit repo "msg" stuck).1 = None /\
   stdout (Repo.Commit repo "msg" stuck).2 =
     stdout stuck ++ ["Commit successful: " +:+ "msg"] /\
   (false = false ->
    fs (Repo.Commit repo "msg" stuck).2 !! stagedFile repo =
      fs stuck !! stagedFile repo)).
Proof.
  assert (Hin : Ev (SysRemove (stagedFile repo)) false
                  ∈ new_events stuck (Repo.Commit repo "msg" stuck).2).
  { apply (list_elem_of_lookup_2 _ 7). vm_compute. reflexivity. }
  split; [exact Hin|].
  exact (proj1 Commit_discards_Remove_error repo "msg" stuck false Hin).
Defined.

(** C1, at the failing input.  With [a.txt] staged, [Commit] succeeds and
    the record it stores has an empty [Files], not the staged path. *)
Theorem Commit_record_has_no_files :
  map path_of <$> staging repo staged_a = Some ["a.txt"] /\
  (Repo.Commit repo "msg" staged_a).1 = None /\
  commit_log repo committed "68c8ea1c44d0821494a821c5b89cc7d8c45b24be" =
    Some (mkCommit "68c8ea1c44d0821494a821c5b89cc7d8c45b24be" "msg"
            "2024-05-01 10:00:00.0000000010 +0000 UTC" []).
Proof. vm_compute. repeat split; reflexivity. Qed.

(** C2, at the failing input.  With a staging file that holds the empty
    sequence, [Status] reports no staged changes, yet [Commit] succeeds
    and stores a commit record. *)
Theorem Commit_of_empty_staging_succeeds :
  staging repo staged_none = Some [] /\
  stdout (Repo.Status repo staged_none).2 =
    stdout staged_none ++ ["No changes staged."] /\
  (Repo.Commit repo "msg" staged_none).1 = None /\
  commit_log repo (Repo.Commit repo "msg" staged_none).2
      (sha1_hex ("msg" +:+ wall 4)) =
    Some (mkCommit (sha1_hex ("msg" +:+ wall 4)) "msg" (wall 5) []).
Proof. vm_compute. repeat split; reflexivity. Qed.

(** C3, counterexample.  The clock advances between the two readings of a
    successful [Commit]: the stored hash is not the digest of the stored
    message and timestamp. *)
Lemma Commit_hash_not_of_timestamp :
  (Repo.Commit repo "msg" staged_a).1 = None /\
  exists c,
    commit_log repo committed (Hash c) = Some c /\
    Hash c = "68c8ea1c44d0821494a821c5b89cc7d8c45b24be" /\
    sha1_hex (Message c +:+ Timestamp c) =
      "e8804b66ca66d605f8c4ea8b763eb0741a018efa" /\
    Hash c <> sha1_hex (Message c +:+ Timestamp c).
Proof.
  split; [vm_compute; reflexivity|].
  exists (mkCommit "68c8ea1c44d0821494a821c5b89cc7d8c45b24be" "msg"
            "2024-05-01 10:00:00.0000000010 +0000 UTC" []).
  vm_compute. repeat split; try reflexivity. discriminate.
Qed.

(** C5, at the failing input.  When removing the staging file fails,
    [Commit] still returns success, the staged sequence is still there,
    and the next [Status] lists it. *)
Theorem Commit_can_leave_staging_nonempty :
  (Repo.Commit repo "msg" stuck).1 = None /\
  map path_of <$> staging repo stuck_committed = Some ["a.txt"] /\
  (Repo.Status repo stuck_committed).1 = None /\
  stdout (Repo.Status repo stuck_committed).2 =
    stdout stuck_committed ++ ["Changes staged:"; "- a.txt"].
Proof. vm_compute. repeat split; reflexivity. Qed.


(** C7, counterexample.  A file whose name is not valid UTF-8 is added to
    an empty staging area; [Add] and [Status] succeed, and [Status] lists
    the name with U+FFFD in place of the byte that is not valid, not the
    path that was added. *)
Lemma Status_lists_other_path :
  staging repo legacy_initialized = Some [] /\
  Stat_answers repo legacy_initialized /\
  Adds repo [latin1] legacy_initialized = Some legacy_staged /\
  (Repo.Status repo legacy_staged).1 = None /\
  stdout (Repo.Status repo legacy_staged).2 =
    stdout legacy_staged
    ++ ["Changes staged:"; "- caf" +:+ utf8.replacement +:+ ".txt"] /\
  stdout (Repo.Status repo legacy_staged).2 <>
    stdout legacy_staged ++ status_lines [latin1].
Proof.
  split; [vm_compute; reflexivity|]. split; [intros n; reflexivity|].
  split; [vm_compute; reflexivity|]. split; [vm_compute; reflexivity|].
  split; [vm_compute; reflexivity|]. vm_compute. discriminate.
Qed.


Lemma HashFile_fails_without_regular_file_witness :
  (fs fresh !! "c.txt" = None \/ fs fresh !! "c.txt" = Some Directory) /\
  ((exists e, (Repo.HashFile repo "c.txt" fresh).1 = Err e) /\
   fs (Repo.HashFile repo "c.txt" fresh).2 = fs fresh /\
   stdout (Repo.HashFile repo "c.txt" fresh).2 = stdout fresh).
Proof.
  assert (Hp : fs fresh !! "c.txt" = None \/ fs fresh !! "c.txt" = Some Directory)
    by (left; vm_compute; reflexivity).
  split; [exact Hp|].
  exact (HashFile_fails_without_regular_file repo "c.txt" fresh Hp).
Defined.

Lemma Init_existing_entry_witness :
  fs initialized !! VcsDir repo = Some Directory /\
  Repo.Init repo initialized =
    (Some AlreadyInitializedError,
     log (SysStat (VcsDir repo))
       match fault_at initialized (SysStat (VcsDir repo)) with
       | None => true
       | Some _ => false
       end initialized).
Proof.
  assert (Hn : fs initialized !! VcsDir repo = Some Directory)
    by (vm_compute; reflexivity).
  split; [exact Hn|].
  exact (Init_existing_entry repo initialized Directory Hn).
Defined.

Lemma Init_failure_changes_nothing_witness :
  (Repo.Init repo initialized).1 = Some AlreadyInitializedError /\
  (fs (Repo.Init repo initialized).2 = fs initialized /\
   stdout (Repo.Init repo initialized).2 = stdout initialized /\
   (AlreadyInitializedError = AlreadyInitializedError /\
    (is_Some (fs initialized !! VcsDir repo) \/
     is_Some (fault_at initialized (SysStat (VcsDir repo)))) /\
    (exists b, new_events initialized (Repo.Init repo initialized).2 =
                 [Ev (SysStat (VcsDir repo)) b]) \/
    exists c, AlreadyInitializedError = InitError c /\
              fs initialized !! VcsDir repo = None /\
              fault_at initialized (SysStat (VcsDir repo)) = None)).
Proof.
  assert (He : (Repo.Init repo initialized).1 = Some AlreadyInitializedError)
    by (vm_compute; reflexivity).
  split; [exact He|].
  exact (Init_failure_changes_nothing repo initialized _ He).
Defined.

Lemma Add_unreadable_file_witness :
  (fs initialized !! "c.txt" = None \/ fs initialized !! "c.txt" = Some Directory) /\
  ((exists e, (Repo.Add repo "c.txt" initialized).1 = Some (PathError e)) /\
   fs (Repo.Add repo "c.txt" initialized).2 = fs initialized /\
   stdout (Repo.Add repo "c.txt" initialized).2 = stdout initialized).
Proof.
  assert (Hp : fs initialized !! "c.txt" = None \/
               fs initialized !! "c.txt" = Some Directory)
    by (left; vm_compute; reflexivity).
  split; [exact Hp|].
  exact (Add_unreadable_file repo "c.txt" initialized Hp).
Defined.

Lemma Add_unreadable_staging_witness :
  staging repo garbled = None /\
  Stat_answers repo garbled /\
  ((Repo.Add repo "a.txt" garbled).1 <> None /\
   fs (Repo.Add repo "a.txt" garbled).2 = fs garbled /\
   stdout (Repo.Add repo "a.txt" garbled).2 = stdout garbled).
Proof.
  assert (Hs : staging repo garbled = None) by (vm_compute; reflexivity).
  assert (Hst : Stat_answers repo garbled) by (intros n; reflexivity).
  split; [exact Hs|]. split; [exact Hst|].
  exact (Add_unreadable_staging repo "a.txt" garbled Hs Hst).
Defined.

Lemma Add_effect_witness :
  Repo.Add repo "a.txt" initialized = (None, staged_a) /\
  Stat_answers repo initialized /\
  (exists l data,
     fs initialized !! "a.txt" = Some (Regular data) /\
     staging repo initialized = Some l /\
     fs staged_a =
       <[stagedFile repo :=
           Regular (encode_staged (l ++ [entry "a.txt" (sha1_hex data)]))]>
         (fs initialized) /\
     stdout staged_a =
       stdout initialized ++ ["Added " +:+ "a.txt" +:+ " to staging area"]).
Proof.
  assert (Ha : Repo.Add repo "a.txt" initialized = (None, staged_a))
    by (vm_compute; reflexivity).
  assert (Hst : Stat_answers repo initialized) by (intros n; reflexivity).
  split; [exact Ha|]. split; [exact Hst|].
  exact (Add_effect repo "a.txt" initialized staged_a Ha Hst).
Defined.

Lemma Add_when_Stat_fails_witness :
  Repo.Add repo "b.txt" blind = (None, (Repo.Add repo "b.txt" blind).2) /\
  is_Some (faults blind (length (trace blind) + 2) (SysStat (stagedFile repo))) /\
  (exists data,
     fs blind !! "b.txt" = Some (Regular data) /\
     fs (Repo.Add repo "b.txt" blind).2 !! stagedFile repo =
       Some (Regular (encode_staged [entry "b.txt" (sha1_hex data)])) /\
     staging repo (Repo.Add repo "b.txt" blind).2 =
       Some [entry (coerce "b.txt") (sha1_hex data)]).
Proof.
  assert (Ha : Repo.Add repo "b.txt" blind = (None, (Repo.Add repo "b.txt" blind).2))
    by (vm_compute; reflexivity).
  assert (Hk : is_Some (faults blind (length (trace blind) + 2)
                          (SysStat (stagedFile repo))))
    by (exists 0; reflexivity).
  split; [exact Ha|]. split; [exact Hk|].
  exact (Add_when_Stat_fails repo "b.txt" blind _ Ha Hk).
Defined.

Lemma Add_calls_witness :
  Ev (SysCreate (stagedFile repo)) true
    ∈ new_events initialized (Repo.Add repo "a.txt" initialized).2 /\
  is_read (Ev (SysCreate (stagedFile repo)) true)
  || (is_store (Ev (SysCreate (stagedFile repo)) true)
      && on_file (stagedFile repo) (Ev (SysCreate (stagedFile repo)) true))
  = true.
Proof.
  assert (Hin : Ev (SysCreate (stagedFile repo)) true
                  ∈ new_events initialized (Repo.Add repo "a.txt" initialized).2).
  { apply (list_elem_of_lookup_2 _ 3). vm_compute. reflexivity. }
  split; [exact Hin|].
  exact (Add_calls repo "a.txt" initialized _ Hin).
Defined.

Lemma Status_read_only_witness :
  Ev (SysRead (stagedFile repo)) true
    ∈ new_events staged_a (Repo.Status repo staged_a).2 /\
  is_read (Ev (SysRead (stagedFile repo)) true)
  && on_file (stagedFile repo) (Ev (SysRead (stagedFile repo)) true) = true.
Proof.
  assert (Hin : Ev (SysRead (stagedFile repo)) true
                  ∈ new_events staged_a (Repo.Status repo staged_a).2).
  { apply (list_elem_of_lookup_2 _ 2). vm_compute. reflexivity. }
  split; [exact Hin|].
  exact (proj1 (proj2 (Status_read_only repo staged_a)) _ Hin).
Defined.

Lemma Status_reports_witness :
  staging repo staged_a = Some [entry "a.txt" (sha1_hex "hello")] /\
  (forall n c, faults staged_a n c = None) /\
  ((Repo.Status repo staged_a).1 = None /\
   stdout (Repo.Status repo staged_a).2 =
     stdout staged_a
     ++ status_lines (map path_of [entry "a.txt" (sha1_hex "hello")])).
Proof.
  assert (Hs : staging repo staged_a = Some [entry "a.txt" (sha1_hex "hello")])
    by (vm_compute; reflexivity).
  assert (Hf : forall n c, faults staged_a n c = None)
    by (intros n c; reflexivity).
  split; [exact Hs|]. split; [exact Hf|].
  exact (Status_reports repo staged_a _ Hs Hf).
Defined.

Lemma Status_unreadable_staging_witness :
  staging repo garbled = None /\
  ((Repo.Status repo garbled).1 <> None /\
   stdout (Repo.Status repo garbled).2 = stdout garbled).
Proof.
  assert (Hs : staging repo garbled = None) by (vm_compute; reflexivity).
  split; [exact Hs|].
  exact (Status_unreadable_staging repo garbled Hs).
Defined.

Lemma Commit_failure_keeps_staging_witness :
  (Repo.Commit repo "msg" garbled).1 = Some (ReadStagedError SyntaxError) /\
  (fs (Repo.Commit repo "msg" garbled).2 !! stagedFile repo =
     fs garbled !! stagedFile repo /\
   stdout (Repo.Commit repo "msg" garbled).2 = stdout garbled).
Proof.
  assert (He : (Repo.Commit repo "msg" garbled).1 =
               Some (ReadStagedError SyntaxError))
    by (vm_compute; reflexivity).
  split; [exact He|].
  exact (Commit_failure_keeps_staging repo "msg" garbled _ He).
Defined.

Lemma Commit_keeps_other_commits_witness :
  "68c8ea1c44d0821494a821c5b89cc7d8c45b24be"
    <> sha1_hex ("next" +:+ clock committed (length (trace committed) + 2)) /\
  (fs (Repo.Commit repo "next" committed).2
     !! commitFile repo "68c8ea1c44d0821494a821c5b89cc7d8c45b24be" =
   fs committed !! commitFile repo "68c8ea1c44d0821494a821c5b89cc7d8c45b24be" /\
   commit_log repo (Repo.Commit repo "next" committed).2
     "68c8ea1c44d0821494a821c5b89cc7d8c45b24be" =
   commit_log repo committed "68c8ea1c44d0821494a821c5b89cc7d8c45b24be").
Proof.
  assert (Hh : "68c8ea1c44d0821494a821c5b89cc7d8c45b24be"
               <> sha1_hex ("next" +:+
                            clock committed (length (trace committed) + 2)))
    by (vm_compute; discriminate).
  split; [exact Hh|].
  exact (Commit_keeps_other_commits repo "next" committed _ Hh).
Defined.

Lemma Commit_unreadable_staging_witness :
  staging repo garbled = None /\
  ((Repo.Commit repo "msg" garbled).1 <> None /\
   fs (Repo.Commit repo "msg" garbled).2 = fs garbled /\
   stdout (Repo.Commit repo "msg" garbled).2 = stdout garbled).
Proof.
  assert (Hs : staging repo garbled = None) by (vm_compute; reflexivity).
  split; [exact Hs|].
  exact (Commit_unreadable_staging repo "msg" garbled Hs).
Defined.

Lemma Commit_twice_witness :
  Ev (SysRemove (stagedFile repo)) true
    ∈ new_events staged_a (Repo.Commit repo "msg" staged_a).2 /\
  ((Repo.Commit repo "again" (Repo.Commit repo "msg" staged_a).2).1 =
     Some NothingToCommitError /\
   fs (Repo.Commit repo "again" (Repo.Commit repo "msg" staged_a).2).2 =
     fs (Repo.Commit repo "msg" staged_a).2).
Proof.
  assert (Hin : Ev (SysRemove (stagedFile repo)) true
                  ∈ new_events staged_a (Repo.Commit repo "msg" staged_a).2).
  { apply (list_elem_of_lookup_2 _ 7). vm_compute. reflexivity. }
  split; [exact Hin|].
  exact (Commit_twice repo "msg" "again" staged_a Hin).
Defined.

Lemma Add_after_Commit_witness :
  Ev (SysRemove (stagedFile repo)) true
    ∈ new_events staged_a (Repo.Commit repo "msg" staged_a).2 /\
  Repo.Add repo "b.txt" (Repo.Commit repo "msg" staged_a).2 = (None, restaged) /\
  (exists h,
     staging repo restaged = Some [entry (coerce "b.txt") h] /\
     (utf8.ValidString "b.txt" = true ->
      staging repo restaged = Some [entry "b.txt" h])).
Proof.
  assert (Hin : Ev (SysRemove (stagedFile repo)) true
                  ∈ new_events staged_a (Repo.Commit repo "msg" staged_a).2).
  { apply (list_elem_of_lookup_2 _ 7). vm_compute. reflexivity. }
  assert (Ha : Repo.Add repo "b.txt" (Repo.Commit repo "msg" staged_a).2 =
               (None, restaged))
    by (vm_compute; reflexivity).
  split; [exact Hin|]. split; [exact Ha|].
  exact (Add_after_Commit repo "msg" "b.txt" staged_a restaged Hin Ha).
Defined.

Lemma execs_staging_ok_witness :
  staging_ok repo fresh /\
  execs repo session fresh = Some after_session /\
  (staging_ok repo after_session /\
   (forall m, (Repo.Commit repo m after_session).1 = None ->
              exists l, staging repo after_session = Some l /\ l <> [])).
Proof.
  assert (H0 : staging_ok repo fresh) by (left; vm_compute; reflexivity).
  assert (H1 : execs repo session fresh = Some after_session)
    by (vm_compute; reflexivity).
  split; [exact H0|]. split; [exact H1|].
  exact (execs_staging_ok repo session fresh after_session H0 H1).
Defined.

Lemma main_version_witness :
  flag.v (flag.mkParsed true true ["commit"]) = true /\
  main os_text (flag.mkParsed true true ["commit"]) fresh =
    (tt, mkWorld (fs fresh) (faults fresh) (clock fresh) (trace fresh)
           (stdout fresh ++ ["Commet version: 0.1.0"])).
Proof.
  assert (Hv : flag.v (flag.mkParsed true true ["commit"]) = true)
    by reflexivity.
  split; [exact Hv|].
  exact (main_version os_text (flag.mkParsed true true ["commit"]) fresh Hv).
Defined.

Lemma main_help_witness :
  flag.v (cli ["log"]) = false /\
  (flag.help (cli ["log"]) = true \/ flag.Args (cli ["log"]) = [] \/
   (flag.Arg (cli ["log"]) 0 <> "init" /\ flag.Arg (cli ["log"]) 0 <> "add" /\
    flag.Arg (cli ["log"]) 0 <> "commit" /\ flag.Arg (cli ["log"]) 0 <> "status")) /\
  main os_text (cli ["log"]) fresh =
    (tt, mkWorld (fs fresh) (faults fresh) (clock fresh) (trace fresh)
           (stdout fresh ++ help_lines)).
Proof.
  assert (Hv : flag.v (cli ["log"]) = false) by reflexivity.
  assert (Hc : flag.help (cli ["log"]) = true \/ flag.Args (cli ["log"]) = [] \/
               (flag.Arg (cli ["log"]) 0 <> "init" /\
                flag.Arg (cli ["log"]) 0 <> "add" /\
                flag.Arg (cli ["log"]) 0 <> "commit" /\
                flag.Arg (cli ["log"]) 0 <> "status")).
  { right. right. vm_compute. repeat split; discriminate. }
  split; [exact Hv|]. split; [exact Hc|].
  exact (main_help os_text (cli ["log"]) fresh Hv Hc).
Defined.

Lemma main_missing_argument_witness :
  flag.v (cli ["commit"]) = false /\ flag.help (cli ["commit"]) = false /\
  flag.Args (cli ["commit"]) = ["commit"] /\
  ("commit" = "add" \/ "commit" = "commit") /\
  main os_text (cli ["commit"]) fresh =
    (tt, mkWorld (fs fresh) (faults fresh) (clock fresh) (trace fresh)
           (stdout fresh ++
              [if bool_decide ("commit" = "add")
               then "Error: You must specify a file to add."
               else "Error: You must provide a commit message."])).
Proof.
  assert (Hc : "commit" = "add" \/ "commit" = "commit") by (right; reflexivity).
  split; [reflexivity|]. split; [reflexivity|]. split; [reflexivity|].
  split; [exact Hc|].
  exact (main_missing_argument os_text (cli ["commit"]) fresh "commit"
           eq_refl eq_refl eq_refl Hc).
Defined.

Lemma main_runs_command_witness :
  flag.v (cli ["add"; "a.txt"; "b.txt"]) = false /\
  flag.help (cli ["add"; "a.txt"; "b.txt"]) = false /\
  command (flag.Args (cli ["add"; "a.txt"; "b.txt"])) = Some (OpAdd "a.txt") /\
  main os_text (cli ["add"; "a.txt"; "b.txt"]) cwd_initialized =
    (let '(err, w') := exec (NewRepo "./") (OpAdd "a.txt") cwd_initialized in
     report os_text err w').
Proof.
  assert (Hc : command (flag.Args (cli ["add"; "a.txt"; "b.txt"])) =
               Some (OpAdd "a.txt"))
    by (vm_compute; reflexivity).
  split; [reflexivity|]. split; [reflexivity|]. split; [exact Hc|].
  exact (main_runs_command os_text (cli ["add"; "a.txt"; "b.txt"])
           cwd_initialized (OpAdd "a.txt") eq_refl eq_refl Hc).
Defined.

Lemma main_without_command_witness :
  (flag.v (cli ["add"]) = true \/ flag.help (cli ["add"]) = true \/
   command (flag.Args (cli ["add"])) = None) /\
  (trace (main os_text (cli ["add"]) cwd_initialized).2 = trace cwd_initialized /\
   fs (main os_text (cli ["add"]) cwd_initialized).2 = fs cwd_initialized).
Proof.
  assert (Hc : flag.v (cli ["add"]) = true \/ flag.help (cli ["add"]) = true \/
               command (flag.Args (cli ["add"])) = None)
    by (right; right; vm_compute; reflexivity).
  split; [exact Hc|].
  exact (main_without_command os_text (cli ["add"]) cwd_initialized Hc).
Defined.

Lemma main_commit_nothing_staged_witness :
  flag.v (cli ["commit"; "msg"]) = false /\
  flag.help (cli ["commit"; "msg"]) = false /\
  flag.Args (cli ["commit"; "msg"]) = "commit" :: "msg" :: [] /\
  fs cwd_initialized !! stagedFile (NewRepo "./") = None /\
  (stdout (main os_text (cli ["commit"; "msg"]) cwd_initialized).2 =
     stdout cwd_initialized ++ ["no changes to commit"] /\
   fs (main os_text (cli ["commit"; "msg"]) cwd_initialized).2 =
     fs cwd_initialized).
Proof.
  assert (Hs : fs cwd_initialized !! stagedFile (NewRepo "./") = None)
    by (vm_compute; reflexivity).
  split; [reflexivity|]. split; [reflexivity|]. split; [reflexivity|].
  split; [exact Hs|].
  exact (main_commit_nothing_staged os_text (cli ["commit"; "msg"])
           cwd_initialized "msg" [] eq_refl eq_refl eq_refl Hs).
Defined.

Lemma main_init_again_witness :
  flag.v (cli ["init"]) = false /\ flag.help (cli ["init"]) = false /\
  flag.Args (cli ["init"]) = "init" :: [] /\
  fs cwd_initialized !! VcsDir (NewRepo "./") = Some Directory /\
  (stdout (main os_text (cli ["init"]) cwd_initialized).2 =
     stdout cwd_initialized ++ ["repository already initialized"] /\
   fs (main os_text (cli ["init"]) cwd_initialized).2 = fs cwd_initialized).
Proof.
  assert (Hs : fs cwd_initialized !! VcsDir (NewRepo "./") = Some Directory)
    by (vm_compute; reflexivity).
  split; [reflexivity|]. split; [reflexivity|]. split; [reflexivity|].
  split; [exact Hs|].
  exact (main_init_again os_text (cli ["init"]) cwd_initialized Directory []
           eq_refl eq_refl eq_refl Hs).
Defined.

Lemma Status_after_Init_witness :
  Repo.Init repo fresh = (None, initialized) /\
  (fs fresh !! VcsDir repo = None -> fs fresh !! stagedFile repo = None) /\
  Stat_answers repo fresh /\
  (staging repo initialized = Some [] /\
   (Repo.Status repo initialized).1 = None /\
   stdout (Repo.Status repo initialized).2 =
     stdout initialized ++ ["No changes staged."]).
Proof.
  assert (Hi : Repo.Init repo fresh = (None, initialized))
    by (vm_compute; reflexivity).
  assert (Ht : fs fresh !! VcsDir repo = None -> fs fresh !! stagedFile repo = None)
    by (intros _; vm_compute; reflexivity).
  assert (Hst : Stat_answers repo fresh) by (intros n; reflexivity).
  split; [exact Hi|]. split; [exact Ht|]. split; [exact Hst|].
  exact (Status_after_Init repo fresh initialized Hi Ht Hst).
Defined.

Lemma Commit_then_Status_when_removed_witness :
  Ev (SysRemove (stagedFile repo)) true
    ∈ new_events staged_a (Repo.Commit repo "msg" staged_a).2 /\
  Stat_answers repo staged_a /\
  ((Repo.Commit repo "msg" staged_a).1 = None /\
   staging repo (Repo.Commit repo "msg" staged_a).2 = Some [] /\
   (Repo.Status repo (Repo.Commit repo "msg" staged_a).2).1 = None /\
   stdout (Repo.Status repo (Repo.Commit repo "msg" staged_a).2).2 =
     stdout (Repo.Commit repo "msg" staged_a).2 ++ ["No changes staged."]).
Proof.
  assert (Hin : Ev (SysRemove (stagedFile repo)) true
                  ∈ new_events staged_a (Repo.Commit repo "msg" staged_a).2).
  { apply (list_elem_of_lookup_2 _ 7). vm_compute. reflexivity. }
  assert (Hst : Stat_answers repo staged_a) by (intros n; reflexivity).
  split; [exact Hin|]. split; [exact Hst|].
  exact (Commit_then_Status_when_removed repo "msg" staged_a Hin Hst).
Defined.

End ConcreteRuns.
